(** * Kinesis alarm facade and Firehose monitoring unit

    A shallow embedding of [KinesisAlarmFactory] (the six alarm operations
    over an injected [AlarmFactory]) and of the alarm part of the
    [KinesisFirehoseMonitoring] constructor.

    JavaScript objects are finite maps from property names to values, so
    that the object literals of the source, with their [...props] spread
    and the properties written after it, are modelled key by key. *)

From stdpp Require Import base gmap strings list pretty sorting.
From Stdlib Require Import ZArith Ascii.

Local Open Scope string_scope.
Local Open Scope Z_scope.
Local Open Scope list_scope.

(** ** JavaScript values *)

(** Modelled from the spec: [ComparisonOperator] is imported from
    aws-cloudwatch; its members here are the four operators the data model
    lists. The source names only [GREATER_THAN_THRESHOLD]. *)
Inductive ComparisonOperator :=
  | GREATER_THAN_OR_EQUAL_TO_THRESHOLD
  | GREATER_THAN_THRESHOLD
  | LESS_THAN_THRESHOLD
  | LESS_THAN_OR_EQUAL_TO_THRESHOLD.

(** Modelled from the spec: [TreatMissingData] is imported from
    aws-cloudwatch; its members are the four policies the data model
    lists. The source names [MISSING] and [NOT_BREACHING]. *)
Inductive TreatMissingData :=
  | BREACHING
  | NOT_BREACHING
  | IGNORE
  | MISSING.

(** A JavaScript number. The finite values are the integer-valued ones
    (record counts, milliseconds); the three non-finite doubles are kept
    apart. *)
Inductive number :=
  | Finite (z : Z)
  | NaN
  | Infinity
  | NegInfinity.

(** [Number.isSafeInteger]: the integers every one of which is a double of
    its own, and which a template literal prints as their decimal numeral.
    [Finite z] stands for a JavaScript number only for these [z]. *)
Definition safe_integer (z : Z) : Prop :=
  - (2 ^ 53 - 1) ≤ z ≤ 2 ^ 53 - 1.

(** The values a property of [props] or of the argument of [addAlarm] can
    hold. The members of the two enums are kept apart from the strings. *)
Inductive JsValue :=
  | Undefined
  | Null
  | Num (n : number)
  | Str (s : string)
  | Operator (c : ComparisonOperator)
  | MissingData (t : TreatMissingData).

#[global] Instance ComparisonOperator_eq_dec : EqDecision ComparisonOperator.
Proof. solve_decision. Defined.
#[global] Instance TreatMissingData_eq_dec : EqDecision TreatMissingData.
Proof. solve_decision. Defined.
#[global] Instance number_eq_dec : EqDecision number.
Proof. solve_decision. Defined.
#[global] Instance JsValue_eq_dec : EqDecision JsValue.
Proof. solve_decision. Defined.

(** [Number.isFinite]. *)
Definition isFinite (v : JsValue) : bool :=
  match v with
  | Num (Finite _) => true
  | _ => false
  end.

(** The string value of the enum members, as a template literal prints
    them. *)
Definition ComparisonOperator_str (c : ComparisonOperator) : string :=
  match c with
  | GREATER_THAN_OR_EQUAL_TO_THRESHOLD => "GreaterThanOrEqualToThreshold"
  | GREATER_THAN_THRESHOLD => "GreaterThanThreshold"
  | LESS_THAN_THRESHOLD => "LessThanThreshold"
  | LESS_THAN_OR_EQUAL_TO_THRESHOLD => "LessThanOrEqualToThreshold"
  end.

Definition TreatMissingData_str (t : TreatMissingData) : string :=
  match t with
  | BREACHING => "breaching"
  | NOT_BREACHING => "notBreaching"
  | IGNORE => "ignore"
  | MISSING => "missing"
  end.

(** [`${n}`] for a number: the decimal numeral of a safe integer. Beyond
    the safe integers, where JavaScript rounds to a double and, from 1e21
    on, prints an exponent, the numeral of [z] is not what the source
    prints; the properties that read the digits are stated for safe
    integers. *)
Definition number_str (n : number) : string :=
  match n with
  | Finite z => pretty z
  | NaN => "NaN"
  | Infinity => "Infinity"
  | NegInfinity => "-Infinity"
  end.

(** [`${v}`]: the string a template literal substitutes for [v]. *)
Definition to_string (v : JsValue) : string :=
  match v with
  | Undefined => "undefined"
  | Null => "null"
  | Num n => number_str n
  | Str s => s
  | Operator c => ComparisonOperator_str c
  | MissingData t => TreatMissingData_str t
  end.

(** [a ?? b]: [b] exactly when [a] is [undefined] or [null]. *)
Definition nullish (a b : JsValue) : JsValue :=
  match a with
  | Undefined | Null => b
  | _ => a
  end.

(** ** Objects and object literals *)

Abbreviation object := (gmap string JsValue).

(** [o.k]: reading a property that the object lacks gives [undefined]. *)
Definition get (o : object) (k : string) : JsValue :=
  default Undefined (o !! k).

(** The members of an object literal, in the order they are written:
    [k: v] or [...o]. A later member replaces an earlier one of the same
    name. *)
Inductive member :=
  | Field (k : string) (v : JsValue)
  | Spread (o : object).

Definition define (acc : object) (m : member) : object :=
  match m with
  | Field k v => <[k := v]> acc
  | Spread o => o ∪ acc
  end.

Definition literal (ms : list member) : object := foldl define ∅ ms.

(** An optional string parameter: [undefined] when the caller omits it. *)
Definition optional (s : option string) : JsValue :=
  match s with
  | Some d => Str d
  | None => Undefined
  end.

(** [s] occurs somewhere inside [t]. *)
Definition contains (t s : string) : Prop :=
  ∃ before after, t = before +:+ s +:+ after.

(** ** Effects

    Alarm creation registers with the enclosing scope and may throw: a
    computation takes the state, and returns the new state with either
    the exception or the result. The state reached when an exception is
    thrown is kept, as it is in JavaScript. *)
Definition Eff (S E A : Type) : Type := S → S * (E + A).

Definition ret {S E A} (a : A) : Eff S E A := λ s, (s, inr a).

Definition throw {S E A} (e : E) : Eff S E A := λ s, (s, inl e).

Definition bind {S E A B} (m : Eff S E A) (k : A → Eff S E B) : Eff S E B :=
  λ s, match m s with
       | (s', inr a) => k a s'
       | (s', inl e) => (s', inl e)
       end.

Notation "x <~ m ;; k" := (bind m (λ x, k))
  (at level 100, m at next level, right associativity).

(** A loop over a list that threads the loop-carried value [t]. *)
Fixpoint forEach {S E X T} (body : X → T → Eff S E T) (xs : list X) (t : T)
    : Eff S E T :=
  match xs with
  | [] => ret t
  | x :: xs' => t' <~ body x t ;; forEach body xs' t'
  end.

(** ** Alarms *)

(** A metric reference; the alarm code only passes it on. *)
Inductive Metric := MetricRef (id : string).

(** Modelled from the spec: [HorizontalAnnotation] is imported from
    aws-cloudwatch; an Annotation is a threshold value with a label. *)
Record HorizontalAnnotation := {
  value : JsValue;
  label : string
}.

(** Modelled from the spec: the Alarm Definition of the data model, with
    the annotation the monitoring unit keeps; the type that [addAlarm]
    returns is declared outside the sources. Fields that the Alarm Factory
    copies from its argument hold JavaScript values. *)
Record AlarmDefinition := {
  metric : Metric;
  resolvedThreshold : JsValue;
  resolvedComparisonOperator : JsValue;
  resolvedMissingDataPolicy : JsValue;
  resolvedEvaluationPeriods : JsValue;
  resolvedDatapointsToAlarm : JsValue;
  name : JsValue;
  description : JsValue;
  dedupeKey : JsValue;
  annotation : HorizontalAnnotation
}.

(** ** KinesisAlarmFactory

    Each operation calls [this.alarmFactory.addAlarm(metric, {...})]; the
    object literal it passes is defined first, member by member, then the
    operations over the injected [alarmFactory]. *)
Module KinesisAlarmFactory.

Definition addIteratorMaxAgeAlarm_props
    (props : object) (disambiguator : option string) : object :=
  literal
    [ Field "treatMissingData"
        (nullish (get props "treatMissingDataOverride") (MissingData MISSING));
      Field "comparisonOperator"
        (nullish (get props "comparisonOperatorOverride")
                 (Operator GREATER_THAN_THRESHOLD));
      Spread props;
      Field "disambiguator" (optional disambiguator);
      Field "threshold" (get props "maxAgeInMillis");
      Field "alarmNameSuffix" (Str "Iterator-Age-Max");
      Field "alarmDescription" (Str "Iterator Max Age is too high.");
      Field "alarmDedupeStringSuffix" (Str "AnyDataStreamIteratorMaxAge") ].

Definition addOldAgeOfRecordAlarm_props
    (props : object) (disambiguator : option string) : object :=
  literal
    [ Field "treatMissingData"
        (nullish (get props "treatMissingDataOverride") (MissingData MISSING));
      Field "comparisonOperator"
        (nullish (get props "comparisonOperatorOverride")
                 (Operator GREATER_THAN_THRESHOLD));
      Spread props;
      Field "disambiguator" (optional disambiguator);
      Field "threshold" (get props "ageOfRecordThreshold");
      Field "alarmNameSuffix" (Str "Record-Max-Age");
      Field "alarmDescription"
        (Str "Max Age of Record in firehose is too high.");
      Field "alarmDedupeStringSuffix"
        (Str "MaxAgeOfRecordExceededInDeliveryStream") ].

Definition addPutRecordsThrottledAlarm_props
    (props : object) (disambiguator : option string) : object :=
  let threshold := get props "maxRecordsThrottledThreshold" in
  literal
    [ Field "treatMissingData"
        (nullish (get props "treatMissingDataOverride")
                 (MissingData NOT_BREACHING));
      Field "comparisonOperator"
        (nullish (get props "comparisonOperatorOverride")
                 (Operator GREATER_THAN_THRESHOLD));
      Spread props;
      Field "disambiguator" (optional disambiguator);
      Field "threshold" threshold;
      Field "alarmNameSuffix" (Str "PutRecordsThrottled");
      Field "alarmDescription"
        (Str ("Number of throttled PutRecords exceeded threshold of "
              +:+ to_string threshold));
      Field "alarmDedupeStringSuffix" (Str "PutRecordsThrottled") ].

Definition addPutRecordsFailedAlarm_props
    (props : object) (disambiguator : option string) : object :=
  let threshold := get props "maxRecordsFailedThreshold" in
  literal
    [ Field "treatMissingData"
        (nullish (get props "treatMissingDataOverride")
                 (MissingData NOT_BREACHING));
      Field "comparisonOperator"
        (nullish (get props "comparisonOperatorOverride")
                 (Operator GREATER_THAN_THRESHOLD));
      Spread props;
      Field "disambiguator" (optional disambiguator);
      Field "threshold" threshold;
      Field "alarmNameSuffix" (Str "PutRecordsFailed");
      Field "alarmDescription"
        (Str ("Number of failed PutRecords exceeded threshold of "
              +:+ to_string threshold));
      Field "alarmDedupeStringSuffix" (Str "PutRecordsFailed") ].

Definition addProvisionedReadThroughputExceededAlarm_props
    (props : object) (disambiguator : string) : object :=
  let threshold := get props "maxRecordsThrottledThreshold" in
  literal
    [ Field "treatMissingData"
        (nullish (get props "treatMissingDataOverride")
                 (MissingData NOT_BREACHING));
      Field "comparisonOperator"
        (nullish (get props "comparisonOperatorOverride")
                 (Operator GREATER_THAN_THRESHOLD));
      Spread props;
      Field "disambiguator" (Str disambiguator);
      Field "threshold" threshold;
      Field "alarmNameSuffix" (Str "ReadThroughputExceeded");
      Field "alarmDescription"
        (Str ("Number of records resulting in read throughput capacity throttling reached the threshold of "
              +:+ to_string threshold +:+ ".")) ].

Definition addProvisionedWriteThroughputExceededAlarm_props
    (props : object) (disambiguator : string) : object :=
  let threshold := get props "maxRecordsThrottledThreshold" in
  literal
    [ Field "treatMissingData"
        (nullish (get props "treatMissingDataOverride")
                 (MissingData NOT_BREACHING));
      Field "comparisonOperator"
        (nullish (get props "comparisonOperatorOverride")
                 (Operator GREATER_THAN_THRESHOLD));
      Spread props;
      Field "disambiguator" (Str disambiguator);
      Field "threshold" threshold;
      Field "alarmNameSuffix" (Str "WriteThroughputExceeded");
      Field "alarmDescription"
        (Str ("Number of records resulting in write throughput capacity throttling reached the threshold of "
              +:+ to_string threshold +:+ ".")) ].


Section Operations.
Context {S E : Type}.
(** [this.alarmFactory.addAlarm], the factory given to the constructor. *)
Variable alarmFactory : Metric → object → Eff S E AlarmDefinition.

Definition addIteratorMaxAgeAlarm
    (metric : Metric) (props : object) (disambiguator : option string) :=
  alarmFactory metric (addIteratorMaxAgeAlarm_props props disambiguator).

Definition addOldAgeOfRecordAlarm
    (metric : Metric) (props : object) (disambiguator : option string) :=
  alarmFactory metric (addOldAgeOfRecordAlarm_props props disambiguator).

Definition addPutRecordsThrottledAlarm
    (metric : Metric) (props : object) (disambiguator : option string) :=
  alarmFactory metric (addPutRecordsThrottledAlarm_props props disambiguator).

Definition addPutRecordsFailedAlarm
    (metric : Metric) (props : object) (disambiguator : option string) :=
  alarmFactory metric (addPutRecordsFailedAlarm_props props disambiguator).

Definition addProvisionedReadThroughputExceededAlarm
    (metric : Metric) (props : object) (disambiguator : string) :=
  alarmFactory metric
    (addProvisionedReadThroughputExceededAlarm_props props disambiguator).

Definition addProvisionedWriteThroughputExceededAlarm
    (metric : Metric) (props : object) (disambiguator : string) :=
  alarmFactory metric
    (addProvisionedWriteThroughputExceededAlarm_props props disambiguator).
End Operations.

(** The six operations, to state a property of all of them at once. *)
Inductive operation :=
  | IteratorMaxAge
  | OldAgeOfRecord
  | PutRecordsThrottled
  | PutRecordsFailed
  | ProvisionedReadThroughputExceeded
  | ProvisionedWriteThroughputExceeded.

(** The type of the [disambiguator] parameter: [string] for the two
    provisioned-throughput operations, [string | undefined] for the rest. *)
Definition disambiguator_param (op : operation) : Type :=
  match op with
  | ProvisionedReadThroughputExceeded
  | ProvisionedWriteThroughputExceeded => string
  | _ => option string
  end.

Definition disambiguator_value {op} : disambiguator_param op → JsValue :=
  match op with
  | ProvisionedReadThroughputExceeded
  | ProvisionedWriteThroughputExceeded => Str
  | _ => optional
  end.

(** The argument the operation [op] hands to the alarm factory. *)
Definition argument (op : operation)
    : object → disambiguator_param op → object :=
  match op with
  | IteratorMaxAge => addIteratorMaxAgeAlarm_props
  | OldAgeOfRecord => addOldAgeOfRecordAlarm_props
  | PutRecordsThrottled => addPutRecordsThrottledAlarm_props
  | PutRecordsFailed => addPutRecordsFailedAlarm_props
  | ProvisionedReadThroughputExceeded =>
      addProvisionedReadThroughputExceededAlarm_props
  | ProvisionedWriteThroughputExceeded =>
      addProvisionedWriteThroughputExceededAlarm_props
  end.

(** The operation [op] of a [KinesisAlarmFactory] over [alarmFactory]. *)
Definition invoke {S E}
    (alarmFactory : Metric → object → Eff S E AlarmDefinition)
    (op : operation)
    : Metric → object → disambiguator_param op → Eff S E AlarmDefinition :=
  match op with
  | IteratorMaxAge => addIteratorMaxAgeAlarm alarmFactory
  | OldAgeOfRecord => addOldAgeOfRecordAlarm alarmFactory
  | PutRecordsThrottled => addPutRecordsThrottledAlarm alarmFactory
  | PutRecordsFailed => addPutRecordsFailedAlarm alarmFactory
  | ProvisionedReadThroughputExceeded =>
      addProvisionedReadThroughputExceededAlarm alarmFactory
  | ProvisionedWriteThroughputExceeded =>
      addProvisionedWriteThroughputExceededAlarm alarmFactory
  end.

End KinesisAlarmFactory.

(** ** Threshold Specification *)

(** Modelled from the spec: [CustomAlarmThreshold] is declared outside the
    sources; these are the fields of the Threshold Specification of the
    data model. The kind-specific threshold ([maxAgeInMillis],
    [ageOfRecordThreshold], ...) is the field [threshold], stored under the
    property name of the kind by [to_object]. *)
Record Specification := {
  threshold : number;
  comparisonOperatorOverride : option ComparisonOperator;
  treatMissingDataOverride : option TreatMissingData;
  disambiguator : option string;
  alarmNameOverride : option string;
  alarmDescriptionOverride : option string;
  alarmDedupeStringOverride : option string;
  evaluationPeriods : option number;
  datapointsToAlarm : option number
}.

(** An optional property: present only when the field is set. *)
Definition property {A} (k : string) (inj : A → JsValue) (field : option A)
    (o : object) : object :=
  match field with
  | Some a => <[k := inj a]> o
  | None => o
  end.

(** The object holding a Specification whose threshold property is
    [thresholdField]. *)
Definition to_object (thresholdField : string) (s : Specification) : object :=
  property "comparisonOperatorOverride" Operator (comparisonOperatorOverride s)
  (property "treatMissingDataOverride" MissingData (treatMissingDataOverride s)
  (property "disambiguator" Str (disambiguator s)
  (property "alarmNameOverride" Str (alarmNameOverride s)
  (property "alarmDescriptionOverride" Str (alarmDescriptionOverride s)
  (property "alarmDedupeStringOverride" Str (alarmDedupeStringOverride s)
  (property "evaluationPeriods" Num (evaluationPeriods s)
  (property "datapointsToAlarm" Num (datapointsToAlarm s)
  {[ thresholdField := Num (threshold s) ]}))))))).

(** A Specification with a threshold and nothing else. *)
Definition plain (n : number) : Specification :=
  {| threshold := n;
     comparisonOperatorOverride := None;
     treatMissingDataOverride := None;
     disambiguator := None;
     alarmNameOverride := None;
     alarmDescriptionOverride := None;
     alarmDedupeStringOverride := None;
     evaluationPeriods := None;
     datapointsToAlarm := None |}.

(** ** The kind constants, as a table

    What each operation of [KinesisAlarmFactory] fixes, read off the
    source; the theorems relate the operations to this table. *)
Module Kind.
Import KinesisAlarmFactory.

Definition thresholdField (op : operation) : string :=
  match op with
  | IteratorMaxAge => "maxAgeInMillis"
  | OldAgeOfRecord => "ageOfRecordThreshold"
  | PutRecordsThrottled => "maxRecordsThrottledThreshold"
  | PutRecordsFailed => "maxRecordsFailedThreshold"
  | ProvisionedReadThroughputExceeded => "maxRecordsThrottledThreshold"
  | ProvisionedWriteThroughputExceeded => "maxRecordsThrottledThreshold"
  end.

Definition alarmNameSuffix (op : operation) : string :=
  match op with
  | IteratorMaxAge => "Iterator-Age-Max"
  | OldAgeOfRecord => "Record-Max-Age"
  | PutRecordsThrottled => "PutRecordsThrottled"
  | PutRecordsFailed => "PutRecordsFailed"
  | ProvisionedReadThroughputExceeded => "ReadThroughputExceeded"
  | ProvisionedWriteThroughputExceeded => "WriteThroughputExceeded"
  end.

Definition alarmDescription (op : operation) (threshold : JsValue) : string :=
  match op with
  | IteratorMaxAge => "Iterator Max Age is too high."
  | OldAgeOfRecord => "Max Age of Record in firehose is too high."
  | PutRecordsThrottled =>
      "Number of throttled PutRecords exceeded threshold of "
      +:+ to_string threshold
  | PutRecordsFailed =>
      "Number of failed PutRecords exceeded threshold of "
      +:+ to_string threshold
  | ProvisionedReadThroughputExceeded =>
      "Number of records resulting in read throughput capacity throttling reached the threshold of "
      +:+ to_string threshold +:+ "."
  | ProvisionedWriteThroughputExceeded =>
      "Number of records resulting in write throughput capacity throttling reached the threshold of "
      +:+ to_string threshold +:+ "."
  end.

Definition alarmDedupeStringSuffix (op : operation) : option string :=
  match op with
  | IteratorMaxAge => Some "AnyDataStreamIteratorMaxAge"
  | OldAgeOfRecord => Some "MaxAgeOfRecordExceededInDeliveryStream"
  | PutRecordsThrottled => Some "PutRecordsThrottled"
  | PutRecordsFailed => Some "PutRecordsFailed"
  | ProvisionedReadThroughputExceeded => None
  | ProvisionedWriteThroughputExceeded => None
  end.

Definition comparisonOperator (op : operation) : ComparisonOperator :=
  GREATER_THAN_THRESHOLD.

(** [MISSING] for the two age kinds, [NOT_BREACHING] for the four counts. *)
Definition treatMissingData (op : operation) : TreatMissingData :=
  match op with
  | IteratorMaxAge | OldAgeOfRecord => MISSING
  | _ => NOT_BREACHING
  end.

(** The delegation as the spec words it: the Specification is handed over
    unresolved, next to the kind's defaults and constants, and the Alarm
    Factory alone lets an override win. *)
Definition unresolved_props (op : operation) (props : object)
    (disambiguator : disambiguator_param op) : object :=
  literal
    ([ Field "treatMissingData" (MissingData (treatMissingData op));
       Field "comparisonOperator" (Operator (comparisonOperator op));
       Spread props;
       Field "disambiguator" (disambiguator_value disambiguator);
       Field "threshold" (get props (thresholdField op));
       Field "alarmNameSuffix" (Str (alarmNameSuffix op));
       Field "alarmDescription"
         (Str (alarmDescription op (get props (thresholdField op)))) ]
     ++ match alarmDedupeStringSuffix op with
        | Some suffix => [ Field "alarmDedupeStringSuffix" (Str suffix) ]
        | None => []
        end).

End Kind.

(** ** AlarmFactory

    The central Alarm Factory ([AlarmFactory] of [../../alarm]) is not part
    of the sources: every definition of this module follows sections 4.1
    and 7 of the spec. *)
Module AlarmFactory.

(** Modelled from the spec: the error kinds of section 7. *)
Inductive Error :=
  | InvalidThresholdError
  | DuplicateAlarmNameError
  | UnknownAlarmKindError.

(** Modelled from the spec: the factory a scope creates for one resource
    by [createAlarmFactory(namePrefix)], with the parts the spec leaves to
    the destination scope: the identifier sanitizer, the label of an
    annotation, and the engine default of each field. *)
Record t := {
  namePrefix : string;
  sanitize : string → string;
  annotationLabel : JsValue → JsValue → string;
  globalDefault : string → JsValue
}.

(** Modelled from the spec: the alarms registered with the enclosing
    scope, oldest first. *)
Definition Scope : Type := list AlarmDefinition.

(** Modelled from the spec: the precedence of section 4.1. An override on
    the Specification wins; otherwise the default of the alarm kind that
    the caller supplies; otherwise the engine default of the field. *)
Definition resolve (f : t) (props : object) (field : string) : JsValue :=
  nullish (get props (field +:+ "Override"))
    (nullish (get props field) (globalDefault f field)).

(** Modelled from the spec: ["-{disambiguator}"] if one is present. *)
Definition disambiguatorSuffix (disambiguator : JsValue) : string :=
  match disambiguator with
  | Undefined | Null => ""
  | d => "-" +:+ to_string d
  end.

(** Modelled from the spec: the name construction
    [{resourceHumanOrFallbackName}-{alarmNameSuffix}{-disambiguator if present}],
    before it is sanitized. *)
Definition unsanitizedName (f : t) (props : object) : string :=
  namePrefix f +:+ "-" +:+ to_string (get props "alarmNameSuffix")
  +:+ disambiguatorSuffix (get props "disambiguator").

(** Modelled from the spec: the constructed name, sanitized to the
    identifier charset of the destination scope. *)
Definition generatedName (f : t) (props : object) : string :=
  sanitize f (unsanitizedName f props).

(** Modelled from the spec: [alarmNameOverride] is a full replacement of
    the generated name. *)
Definition alarmName (f : t) (props : object) : JsValue :=
  nullish (get props "alarmNameOverride") (Str (generatedName f props)).

(** Modelled from the spec: the description of the alarm kind, with the
    threshold already substituted by the caller, unless
    [alarmDescriptionOverride] is set. *)
Definition alarmDescription (props : object) : JsValue :=
  nullish (get props "alarmDescriptionOverride") (get props "alarmDescription").

(** Modelled from the spec: the per-kind scoping table of the dedupe key.
    The kinds that aggregate across resources are the ones documented as
    such where their dedupe suffix is set ("we will dedupe any kind of
    message count issue to the same ticket"): iterator-max-age,
    put-records-throttled and put-records-failed. Delivery-freshness is
    documented as resource-scoped. *)
Definition aggregating : list string :=
  [ "AnyDataStreamIteratorMaxAge"; "PutRecordsThrottled"; "PutRecordsFailed" ].

(** Modelled from the spec: whether the kind of the given dedupe suffix
    aggregates across resources, by the scoping table. *)
Definition aggregatesAcrossResources (alarmDedupeStringSuffix : JsValue)
    : bool :=
  match alarmDedupeStringSuffix with
  | Str suffix => bool_decide (suffix ∈ aggregating)
  | _ => false
  end.

(** Modelled from the spec: the dedupe key is the override if present,
    else the dedupe suffix of the kind alone, with no resource part, when
    the kind aggregates across resources, else
    [{resourceName}-{alarmNameSuffix}]. *)
Definition alarmDedupeKey (f : t) (props : object) : JsValue :=
  nullish (get props "alarmDedupeStringOverride")
    (if aggregatesAcrossResources (get props "alarmDedupeStringSuffix")
     then get props "alarmDedupeStringSuffix"
     else Str (namePrefix f +:+ "-"
               +:+ to_string (get props "alarmNameSuffix"))).

(** Modelled from the spec: the resolution of a Specification into an
    Alarm Definition, without registration. *)
Definition resolveAlarm (f : t) (metric : Metric) (props : object)
    : AlarmDefinition :=
  let threshold := get props "threshold" in
  let operator := resolve f props "comparisonOperator" in
  {| metric := metric;
     resolvedThreshold := threshold;
     resolvedComparisonOperator := operator;
     resolvedMissingDataPolicy := resolve f props "treatMissingData";
     resolvedEvaluationPeriods :=
       nullish (get props "evaluationPeriods")
               (globalDefault f "evaluationPeriods");
     resolvedDatapointsToAlarm :=
       nullish (get props "datapointsToAlarm")
               (globalDefault f "datapointsToAlarm");
     name := alarmName f props;
     description := alarmDescription props;
     dedupeKey := alarmDedupeKey f props;
     annotation :=
       {| value := threshold; label := annotationLabel f operator threshold |}
  |}.

(** Modelled from the spec: registration with the scope, refused when the
    name is already taken there. *)
Definition register (alarm : AlarmDefinition)
    : Eff Scope Error AlarmDefinition :=
  λ scope,
    if decide (name alarm ∈ name <$> scope)
    then throw DuplicateAlarmNameError scope
    else (scope ++ [alarm], inr alarm).

(** Modelled from the spec: the valid range of a threshold. The spec names
    one bound, that a duration is not negative; the thresholds of the
    Kinesis kinds are ages and record counts, and the range of either is
    taken to be the numbers from zero on. *)
Definition inValidRange (threshold : JsValue) : bool :=
  match threshold with
  | Num (Finite z) => bool_decide (0 ≤ z)
  | _ => false
  end.

(** Modelled from the spec: a threshold is valid when it is present, finite
    and in the valid range. *)
Definition validThreshold (threshold : JsValue) : bool :=
  isFinite threshold && inValidRange threshold.

(** Modelled from the spec: [addAlarm] of section 4.1. A threshold that is
    missing, not a finite number or out of the valid range is refused at
    resolution time, before any registration; otherwise the alarm is
    resolved, registered and returned. *)
Definition addAlarm (f : t) (metric : Metric) (props : object)
    : Eff Scope Error AlarmDefinition :=
  if validThreshold (get props "threshold")
  then register (resolveAlarm f metric props)
  else throw InvalidThresholdError.

End AlarmFactory.

(** Modelled from the spec: the dedupe key of a kind that aggregates across
    resources, by the scoping table; [None] for a resource-scoped kind. *)
Definition aggregateDedupeKey (op : KinesisAlarmFactory.operation)
    : option string :=
  match Kind.alarmDedupeStringSuffix op with
  | Some suffix =>
      if AlarmFactory.aggregatesAcrossResources (Str suffix)
      then Some suffix else None
  | None => None
  end.

(** ** Records keyed by string and [for ... in]

    A [Record<string, T>] is the list of its properties in creation order,
    each name occurring once. [for (const k in o)] visits the names that
    are array indices first, in ascending numeric order, then the other
    names in creation order; over [undefined] it visits nothing. *)
Abbreviation dictionary A := (list (string * A)).

Definition digit (c : ascii) : option N :=
  let n := N_of_ascii c in
  if decide (48 ≤ n ≤ 57)%N then Some (n - 48)%N else None.

Fixpoint digits (s : string) (acc : N) : option N :=
  match s with
  | EmptyString => Some acc
  | String c s' =>
      match digit c with
      | Some d => digits s' (10 * acc + d)%N
      | None => None
      end
  end.

(** The array index a property name denotes: a canonical decimal numeral
    below [2^32 - 1]. *)
Definition array_index (k : string) : option N :=
  match k with
  | EmptyString => None
  | _ =>
      match digits k 0 with
      | Some n =>
          if decide (pretty n = k ∧ (n < 2 ^ 32 - 1)%N) then Some n else None
      | None => None
      end
  end.

Fixpoint insert_by_index {A} (x : N * A) (l : list (N * A)) : list (N * A) :=
  match l with
  | [] => [x]
  | y :: l' =>
      if decide (x.1 ≤ y.1)%N then x :: l else y :: insert_by_index x l'
  end.

Definition sort_by_index {A} (l : list (N * A)) : list (N * A) :=
  foldr insert_by_index [] l.

Definition indexed {A} (o : dictionary A) : list (N * (string * A)) :=
  omap (λ kv, match array_index kv.1 with
              | Some n => Some (n, kv)
              | None => None
              end) o.

Definition named {A} (o : dictionary A) : dictionary A :=
  filter (λ kv, array_index kv.1 = None) o.

(** The properties of [o] in the order [for ... in] visits them. *)
Definition for_in {A} (o : option (dictionary A)) : dictionary A :=
  match o with
  | Some o => (sort_by_index (indexed o)).*2 ++ named o
  | None => []
  end.

(** [visited] lists the properties of [o] with the array-index names
    first, in ascending numeric order, and the other names after them, in
    creation order. *)
Definition index_names_first {A} (o visited : dictionary A) : Prop :=
  ∃ idx : list (N * (string * A)),
    visited = idx.*2 ++ filter (λ kv, array_index kv.1 = None) o
    ∧ Forall (λ p, array_index p.2.1 = Some p.1) idx
    ∧ StronglySorted (λ p q, (p.1 ≤ q.1)%N) idx
    ∧ idx.*2 ≡ₚ filter (λ kv, is_Some (array_index kv.1)) o.

(** ** KinesisFirehoseMonitoring

    The alarm part of the constructor: the two loops and the call of the
    [useCreatedAlarms] consumer. The metrics and the alarm factory that the
    constructor obtains from its collaborators before the loops are
    parameters. *)
Module KinesisFirehoseMonitoring.

Section Unit.
Context {S E : Type}.

(** The calls made to the collaborators, in the order they happen: a log
    kept next to the state, to say which calls a construction makes. *)
Inductive event :=
  | AddAlarm (metric : Metric) (props : object) (outcome : E + AlarmDefinition)
  | Consume (alarms : list AlarmDefinition).

Record World := {
  ext : S;
  trace : list event
}.

(** [IAlarmConsumer]: what [consume] does is up to the caller. *)
Record IAlarmConsumer := {
  consume : list AlarmDefinition → Eff S E unit
}.

Record Props := {
  addDeliveryFreshnessAlarm : option (dictionary object);
  addRecordsThrottledAlarm : option (dictionary object);
  useCreatedAlarms : option IAlarmConsumer
}.

(** The fields of [this] that the loops write. [alarms] belongs to the
    base class [Monitoring]. *)
Record t := {
  recordCountAnnotations : list HorizontalAnnotation;
  ageAnnotations : list HorizontalAnnotation;
  alarms : list AlarmDefinition
}.

(** Modelled from the spec: [Monitoring.addAlarm]; the base class is not
    part of the sources. The unit registers each alarm with its own
    created-alarms collection. *)
Definition addAlarm (this : t) (createdAlarm : AlarmDefinition) : t :=
  {| recordCountAnnotations := recordCountAnnotations this;
     ageAnnotations := ageAnnotations this;
     alarms := alarms this ++ [createdAlarm] |}.

(** Modelled from the spec: [Monitoring.createdAlarms], the read-only view
    of that collection. *)
Definition createdAlarms (this : t) : list AlarmDefinition := alarms this.

(** [this.recordCountAnnotations.push(a)], [this.ageAnnotations.push(a)]. *)
Definition push_recordCountAnnotations (this : t) (a : HorizontalAnnotation) : t :=
  {| recordCountAnnotations := recordCountAnnotations this ++ [a];
     ageAnnotations := ageAnnotations this;
     alarms := alarms this |}.

Definition push_ageAnnotations (this : t) (a : HorizontalAnnotation) : t :=
  {| recordCountAnnotations := recordCountAnnotations this;
     ageAnnotations := ageAnnotations this ++ [a];
     alarms := alarms this |}.

(** The alarm factory of the unit and the two metrics the loops use. *)
Variable alarmFactory : Metric → object → Eff S E AlarmDefinition.
Variable throttledRecordsMetric : Metric.
Variable maxAgeofRecordsMetric : Metric.

(** The collaborators, with their calls logged. *)
Definition logged_addAlarm (metric : Metric) (props : object)
    : Eff World E AlarmDefinition :=
  λ w, let '(s', outcome) := alarmFactory metric props (ext w) in
       ({| ext := s'; trace := trace w ++ [AddAlarm metric props outcome] |},
        outcome).

Definition logged_consume (consumer : IAlarmConsumer)
    (alarms : list AlarmDefinition) : Eff World E unit :=
  λ w, let '(s', outcome) := consume consumer alarms (ext w) in
       ({| ext := s'; trace := trace w ++ [Consume alarms] |}, outcome).

Definition recordsThrottled_body (entry : string * object) (this : t)
    : Eff World E t :=
  let '(disambiguator, alarmProps) := entry in
  createdAlarm <~
    KinesisAlarmFactory.addPutRecordsThrottledAlarm logged_addAlarm
      throttledRecordsMetric alarmProps (Some disambiguator) ;;
  let this := push_recordCountAnnotations this (annotation createdAlarm) in
  ret (addAlarm this createdAlarm).

Definition deliveryFreshness_body (entry : string * object) (this : t)
    : Eff World E t :=
  let '(disambiguator, alarmProps) := entry in
  createdAlarm <~
    KinesisAlarmFactory.addOldAgeOfRecordAlarm logged_addAlarm
      maxAgeofRecordsMetric alarmProps (Some disambiguator) ;;
  let this := push_ageAnnotations this (annotation createdAlarm) in
  ret (addAlarm this createdAlarm).

Definition constructor (props : Props) : Eff World E t :=
  let this :=
    {| recordCountAnnotations := []; ageAnnotations := []; alarms := [] |} in
  this <~ forEach recordsThrottled_body
            (for_in (addRecordsThrottledAlarm props)) this ;;
  this <~ forEach deliveryFreshness_body
            (for_in (addDeliveryFreshnessAlarm props)) this ;;
  _ <~ match useCreatedAlarms props with
       | Some consumer => logged_consume consumer (createdAlarms this)
       | None => ret ()
       end ;;
  ret this.

(** The log entry of the call that created [createdAlarm] for one entry
    of [addRecordsThrottledAlarm], and of [addDeliveryFreshnessAlarm]. *)
Definition recordsThrottled_call (entry : string * object)
    (createdAlarm : AlarmDefinition) : event :=
  AddAlarm throttledRecordsMetric
    (KinesisAlarmFactory.addPutRecordsThrottledAlarm_props entry.2
       (Some entry.1))
    (inr createdAlarm).

Definition deliveryFreshness_call (entry : string * object)
    (createdAlarm : AlarmDefinition) : event :=
  AddAlarm maxAgeofRecordsMetric
    (KinesisAlarmFactory.addOldAgeOfRecordAlarm_props entry.2 (Some entry.1))
    (inr createdAlarm).


End Unit.

End KinesisFirehoseMonitoring.

(** ** Auxiliary definitions and the instances of the examples *)

(** A sanitizer that keeps letters, digits, [-] and [_] and drops the
    rest: one possible identifier charset of a destination scope. *)
Definition identifier_char (c : ascii) : bool :=
  let n := N_of_ascii c in
  bool_decide ((48 ≤ n ≤ 57) ∨ (65 ≤ n ≤ 90) ∨ (97 ≤ n ≤ 122)
               ∨ n = 45 ∨ n = 95)%N.

Fixpoint keep_identifier_chars (s : string) : string :=
  match s with
  | EmptyString => EmptyString
  | String c s' =>
      if identifier_char c then String c (keep_identifier_chars s')
      else keep_identifier_chars s'
  end.

(** The Specifications of the examples: threshold 50, with one override. *)
Definition lessThan50 : Specification :=
  {| threshold := Finite 50;
     comparisonOperatorOverride := Some LESS_THAN_THRESHOLD;
     treatMissingDataOverride := None;
     disambiguator := None;
     alarmNameOverride := None;
     alarmDescriptionOverride := None;
     alarmDedupeStringOverride := None;
     evaluationPeriods := None;
     datapointsToAlarm := None |}.

Definition renamed50 : Specification :=
  {| threshold := Finite 50;
     comparisonOperatorOverride := None;
     treatMissingDataOverride := None;
     disambiguator := None;
     alarmNameOverride := Some "ThrottleAlarm";
     alarmDescriptionOverride := None;
     alarmDedupeStringOverride := None;
     evaluationPeriods := None;
     datapointsToAlarm := None |}.

(** A factory for the resource [prefix]: annotations are labelled with the
    operator and the threshold, and no field has an engine default. *)
Definition exampleFactory (prefix : string) : AlarmFactory.t :=
  {| AlarmFactory.namePrefix := prefix;
     AlarmFactory.sanitize := keep_identifier_chars;
     AlarmFactory.annotationLabel :=
       λ operator threshold,
         to_string operator +:+ " " +:+ to_string threshold;
     AlarmFactory.globalDefault := λ _, Undefined |}.

(** A monitoring unit over that factory: three records-throttled alarms
    "a", "b", "c", one delivery-freshness alarm, and a consumer that does
    nothing with the alarms it is given. *)
Definition exampleProps
    : @KinesisFirehoseMonitoring.Props AlarmFactory.Scope AlarmFactory.Error :=
  {| KinesisFirehoseMonitoring.addDeliveryFreshnessAlarm :=
       Some [ ("x", to_object "ageOfRecordThreshold" (plain (Finite 900))) ];
     KinesisFirehoseMonitoring.addRecordsThrottledAlarm :=
       Some [ ("a", to_object "maxRecordsThrottledThreshold" (plain (Finite 1)));
              ("b", to_object "maxRecordsThrottledThreshold" (plain (Finite 2)));
              ("c", to_object "maxRecordsThrottledThreshold" (plain (Finite 3))) ];
     KinesisFirehoseMonitoring.useCreatedAlarms :=
       Some {| KinesisFirehoseMonitoring.consume := λ _, ret () |} |}.

Definition emptyWorld
    : @KinesisFirehoseMonitoring.World AlarmFactory.Scope AlarmFactory.Error :=
  {| KinesisFirehoseMonitoring.ext := [];
     KinesisFirehoseMonitoring.trace := [] |}.

(** ** KinesisFirehoseMonitoring: the widgets

    [summaryWidgets], [widgets] and the seven [create...Widget] methods.
    A widget is the properties object its constructor is given. *)

(** The axis constants imported from [../../common], kept as names. *)
Inductive YAxisProps :=
  | CountAxisFromZero
  | RateAxisFromZero
  | TimeAxisMillisFromZero
  | TimeAxisSecondsFromZero.

(** A metric as a graph shows it: as it is, or decorated by
    [metric.with({ label })]. *)
Record DisplayedMetric := {
  displayed : Metric;
  labelled : option string
}.

Definition as_is (metric : Metric) : DisplayedMetric :=
  {| displayed := metric; labelled := None |}.

Definition with_label (metric : Metric) (label : string) : DisplayedMetric :=
  {| displayed := metric; labelled := Some label |}.

(** The properties given to [new GraphWidget({...})]; [leftAnnotations] is
    absent when the literal has none. *)
Module GraphWidget.
Record t := {
  width : number;
  height : number;
  title : string;
  left : list DisplayedMetric;
  leftYAxis : YAxisProps;
  leftAnnotations : option (list HorizontalAnnotation)
}.
End GraphWidget.

(** The properties given to [new MonitoringHeaderWidget({...})]. *)
Module MonitoringHeaderWidget.
Record t := {
  family : string;
  title : string;
  goToLinkUrl : option string
}.
End MonitoringHeaderWidget.

Inductive IWidget :=
  | Header (widget : MonitoringHeaderWidget.t)
  | Graph (widget : GraphWidget.t).

Module KinesisFirehoseWidgets.

(** The read-only fields of [this] that the constructor sets before the
    loops: the title, the console link and the twelve metrics. *)
Record Fields := {
  title : string;
  streamUrl : option string;
  incomingBytesMetric : Metric;
  incomingRecordsMetric : Metric;
  throttledRecordsMetric : Metric;
  successfulConversionMetric : Metric;
  failedConversionMetric : Metric;
  putRecordLatency : Metric;
  putRecordBatchLatency : Metric;
  incomingBytesToLimitRate : Metric;
  incomingRecordsToLimitRate : Metric;
  incomingPutRequestsToLimitRate : Metric;
  maxAgeofRecordsMetric : Metric;
  deliveredRecordsMetric : Metric
}.

Section Widgets.
(** The sizes imported from [../../common]. *)
Variable HalfWidth SixthWidth : number.
Variable DefaultGraphWidgetHeight DefaultSummaryWidgetHeight : number.

(** [this]: its read-only fields and the part the loops wrote. *)
Variable fields : Fields.
Variable this : KinesisFirehoseMonitoring.t.

Definition createTitleWidget : MonitoringHeaderWidget.t :=
  {| MonitoringHeaderWidget.family := "Firehose Delivery Stream";
     MonitoringHeaderWidget.title := title fields;
     MonitoringHeaderWidget.goToLinkUrl := streamUrl fields |}.

Definition createIncomingRecordWidget (width height : number)
    : GraphWidget.t :=
  {| GraphWidget.width := width;
     GraphWidget.height := height;
     GraphWidget.title := "Records";
     GraphWidget.left :=
       [ as_is (incomingRecordsMetric fields);
         as_is (throttledRecordsMetric fields) ];
     GraphWidget.leftYAxis := CountAxisFromZero;
     GraphWidget.leftAnnotations :=
       Some (KinesisFirehoseMonitoring.recordCountAnnotations this) |}.

Definition createDeliveredRecordWidget (width height : number)
    : GraphWidget.t :=
  {| GraphWidget.width := width;
     GraphWidget.height := height;
     GraphWidget.title := "Records";
     GraphWidget.left := [ as_is (deliveredRecordsMetric fields) ];
     GraphWidget.leftYAxis := CountAxisFromZero;
     GraphWidget.leftAnnotations :=
       Some (KinesisFirehoseMonitoring.recordCountAnnotations this) |}.

Definition createLatencyWidget (width height : number) : GraphWidget.t :=
  {| GraphWidget.width := width;
     GraphWidget.height := height;
     GraphWidget.title := "Latency (P90)";
     GraphWidget.left :=
       [ as_is (putRecordLatency fields);
         as_is (putRecordBatchLatency fields) ];
     GraphWidget.leftYAxis := TimeAxisMillisFromZero;
     GraphWidget.leftAnnotations := None |}.

Definition createConversionWidget (width height : number) : GraphWidget.t :=
  {| GraphWidget.width := width;
     GraphWidget.height := height;
     GraphWidget.title := "Conversions";
     GraphWidget.left :=
       [ as_is (successfulConversionMetric fields);
         as_is (failedConversionMetric fields) ];
     GraphWidget.leftYAxis := CountAxisFromZero;
     GraphWidget.leftAnnotations := None |}.

Definition createLimitWidget (width height : number) : GraphWidget.t :=
  {| GraphWidget.width := width;
     GraphWidget.height := height;
     GraphWidget.title := "Limits (rate)";
     GraphWidget.left :=
       [ with_label (incomingBytesToLimitRate fields) "Bytes";
         with_label (incomingRecordsToLimitRate fields) "Records";
         with_label (incomingPutRequestsToLimitRate fields) "PutRequests" ];
     GraphWidget.leftYAxis := RateAxisFromZero;
     GraphWidget.leftAnnotations :=
       Some [ {| value := Num (Finite 1); label := "100% usage" |} ] |}.

Definition createRecordFreshnessWidget (width height : number)
    : GraphWidget.t :=
  {| GraphWidget.width := width;
     GraphWidget.height := height;
     GraphWidget.title := "Data Freshness";
     GraphWidget.left := [ as_is (maxAgeofRecordsMetric fields) ];
     GraphWidget.leftYAxis := TimeAxisSecondsFromZero;
     GraphWidget.leftAnnotations :=
       Some (KinesisFirehoseMonitoring.ageAnnotations this) |}.

Definition summaryWidgets : list IWidget :=
  [ Header createTitleWidget;
    Graph (createIncomingRecordWidget HalfWidth DefaultSummaryWidgetHeight);
    Graph (createConversionWidget HalfWidth DefaultSummaryWidgetHeight) ].

Definition widgets : list IWidget :=
  [ Header createTitleWidget;
    Graph (createIncomingRecordWidget SixthWidth DefaultGraphWidgetHeight);
    Graph (createDeliveredRecordWidget SixthWidth DefaultGraphWidgetHeight);
    Graph (createLatencyWidget SixthWidth DefaultGraphWidgetHeight);
    Graph (createConversionWidget SixthWidth DefaultGraphWidgetHeight);
    Graph (createLimitWidget SixthWidth DefaultGraphWidgetHeight) ].

End Widgets.

(** The annotations a widget shows. *)
Definition shown_annotations (widget : IWidget) : list HorizontalAnnotation :=
  match widget with
  | Header _ => []
  | Graph g => default [] (GraphWidget.leftAnnotations g)
  end.

(** The metrics a widget shows. *)
Definition shown_metrics (widget : IWidget) : list Metric :=
  match widget with
  | Header _ => []
  | Graph g => displayed <$> GraphWidget.left g
  end.

End KinesisFirehoseWidgets.

(** ** A construction that throws *)

(** The log entry of the call made for one entry of
    [addRecordsThrottledAlarm], and of [addDeliveryFreshnessAlarm],
    whatever its outcome. *)
Definition recordsThrottled_attempt {E} (throttledRecordsMetric : Metric)
    (entry : string * object) (outcome : E + AlarmDefinition)
    : @KinesisFirehoseMonitoring.event E :=
  KinesisFirehoseMonitoring.AddAlarm throttledRecordsMetric
    (KinesisAlarmFactory.addPutRecordsThrottledAlarm_props entry.2
       (Some entry.1))
    outcome.

Definition deliveryFreshness_attempt {E} (maxAgeofRecordsMetric : Metric)
    (entry : string * object) (outcome : E + AlarmDefinition)
    : @KinesisFirehoseMonitoring.event E :=
  KinesisFirehoseMonitoring.AddAlarm maxAgeofRecordsMetric
    (KinesisAlarmFactory.addOldAgeOfRecordAlarm_props entry.2 (Some entry.1))
    outcome.

(** [calls] is a loop over [entries] that threw [e] at some entry: the
    calls for the entries before it returned, the call for that entry
    threw, and no call was made for the entries after it. *)
Definition stopped_at {E}
    (attempt : string * object → E + AlarmDefinition
               → @KinesisFirehoseMonitoring.event E)
    (entries : dictionary object) (e : E)
    (calls : list (@KinesisFirehoseMonitoring.event E)) : Prop :=
  ∃ n entry created,
    entries !! n = Some entry
    ∧ length created = n
    ∧ calls
      = zip_with (λ entry a, attempt entry (inr a)) (take n entries) created
        ++ [attempt entry (inl e)].

(** A monitoring unit whose second records-throttled entry has no finite
    threshold. *)
Definition failingProps
    : @KinesisFirehoseMonitoring.Props AlarmFactory.Scope AlarmFactory.Error :=
  {| KinesisFirehoseMonitoring.addDeliveryFreshnessAlarm :=
       Some [ ("x", to_object "ageOfRecordThreshold" (plain (Finite 900))) ];
     KinesisFirehoseMonitoring.addRecordsThrottledAlarm :=
       Some [ ("a", to_object "maxRecordsThrottledThreshold" (plain (Finite 1)));
              ("b", to_object "maxRecordsThrottledThreshold" (plain NaN));
              ("c", to_object "maxRecordsThrottledThreshold" (plain (Finite 3))) ];
     KinesisFirehoseMonitoring.useCreatedAlarms :=
       Some {| KinesisFirehoseMonitoring.consume := λ _, ret () |} |}.

(** A monitoring unit without alarms. *)
Definition noAlarmProps
    : @KinesisFirehoseMonitoring.Props AlarmFactory.Scope AlarmFactory.Error :=
  {| KinesisFirehoseMonitoring.addDeliveryFreshnessAlarm := None;
     KinesisFirehoseMonitoring.addRecordsThrottledAlarm := Some [];
     KinesisFirehoseMonitoring.useCreatedAlarms :=
       Some {| KinesisFirehoseMonitoring.consume := λ _, ret () |} |}.

(** A monitoring unit whose records-throttled alarms are written in the
    order "b", "10", "a", "2", with the thresholds 1, 2, 3, 4. *)
Definition numberedProps
    : @KinesisFirehoseMonitoring.Props AlarmFactory.Scope AlarmFactory.Error :=
  {| KinesisFirehoseMonitoring.addDeliveryFreshnessAlarm := None;
     KinesisFirehoseMonitoring.addRecordsThrottledAlarm :=
       Some [ ("b", to_object "maxRecordsThrottledThreshold" (plain (Finite 1)));
              ("10", to_object "maxRecordsThrottledThreshold" (plain (Finite 2)));
              ("a", to_object "maxRecordsThrottledThreshold" (plain (Finite 3)));
              ("2", to_object "maxRecordsThrottledThreshold" (plain (Finite 4))) ];
     KinesisFirehoseMonitoring.useCreatedAlarms := None |}.

(** The fields of a unit for the delivery stream "OrdersStream". *)
Definition exampleFields : KinesisFirehoseWidgets.Fields :=
  {| KinesisFirehoseWidgets.title := "OrdersStream";
     KinesisFirehoseWidgets.streamUrl := None;
     KinesisFirehoseWidgets.incomingBytesMetric := MetricRef "IncomingBytes";
     KinesisFirehoseWidgets.incomingRecordsMetric := MetricRef "IncomingRecords";
     KinesisFirehoseWidgets.throttledRecordsMetric := MetricRef "ThrottledRecords";
     KinesisFirehoseWidgets.successfulConversionMetric :=
       MetricRef "SucceedConversion";
     KinesisFirehoseWidgets.failedConversionMetric := MetricRef "FailedConversion";
     KinesisFirehoseWidgets.putRecordLatency := MetricRef "PutRecordLatency";
     KinesisFirehoseWidgets.putRecordBatchLatency :=
       MetricRef "PutRecordBatchLatency";
     KinesisFirehoseWidgets.incomingBytesToLimitRate := MetricRef "BytesRate";
     KinesisFirehoseWidgets.incomingRecordsToLimitRate := MetricRef "RecordsRate";
     KinesisFirehoseWidgets.incomingPutRequestsToLimitRate :=
       MetricRef "PutRequestsRate";
     KinesisFirehoseWidgets.maxAgeofRecordsMetric := MetricRef "DataFreshness";
     KinesisFirehoseWidgets.deliveredRecordsMetric := MetricRef "DeliveredRecords" |}.

(** * Properties *)

(** ** Reading an object literal *)

Lemma lookup_define_field_eq (acc : object) k v :
  define acc (Field k v) !! k = Some v.
Proof. apply lookup_insert_eq. Qed.

Lemma lookup_define_field_ne (acc : object) k v k' :
  k ≠ k' → define acc (Field k v) !! k' = acc !! k'.
Proof. apply lookup_insert_ne. Qed.

Lemma lookup_define_spread (acc o : object) k :
  define acc (Spread o) !! k =
  match o !! k with Some v => Some v | None => acc !! k end.
Proof.
  simpl. rewrite lookup_union. destruct (o !! k), (acc !! k); reflexivity.
Qed.

(** Read one key of a literal whose members are listed. *)
Ltac read_literal :=
  unfold literal; cbn [foldl app];
  repeat first
    [ rewrite lookup_define_field_eq
    | rewrite lookup_define_field_ne by done
    | rewrite lookup_define_spread ].

(** What [to_object] stores. *)
Lemma lookup_property {A} k (inj : A → JsValue) field (o : object) k' :
  property k inj field o !! k' =
  match field with
  | Some a => if decide (k = k') then Some (inj a) else o !! k'
  | None => o !! k'
  end.
Proof. destruct field; simpl; [apply lookup_insert | reflexivity]. Qed.

(** ** The argument each operation passes *)

Section Argument.
Import KinesisAlarmFactory.

(** Case split on the operation and expose its object literal. *)
Ltac each_operation op :=
  destruct op;
  unfold argument, Kind.unresolved_props,
    addIteratorMaxAgeAlarm_props, addOldAgeOfRecordAlarm_props,
    addPutRecordsThrottledAlarm_props, addPutRecordsFailedAlarm_props,
    addProvisionedReadThroughputExceededAlarm_props,
    addProvisionedWriteThroughputExceededAlarm_props,
    Kind.thresholdField, Kind.alarmNameSuffix, Kind.alarmDescription,
    Kind.alarmDedupeStringSuffix, Kind.comparisonOperator,
    Kind.treatMissingData, disambiguator_value;
  cbv zeta.

Lemma props_threshold op props (d : disambiguator_param op) :
  argument op props d !! "threshold"
  = Some (get props (Kind.thresholdField op)).
Proof. each_operation op; read_literal; reflexivity. Qed.

Lemma props_alarmNameSuffix op props (d : disambiguator_param op) :
  argument op props d !! "alarmNameSuffix"
  = Some (Str (Kind.alarmNameSuffix op)).
Proof. each_operation op; read_literal; reflexivity. Qed.

Lemma props_alarmDescription op props (d : disambiguator_param op) :
  argument op props d !! "alarmDescription"
  = Some (Str (Kind.alarmDescription op (get props (Kind.thresholdField op)))).
Proof. each_operation op; read_literal; reflexivity. Qed.

Lemma props_disambiguator op props (d : disambiguator_param op) :
  argument op props d !! "disambiguator" = Some (disambiguator_value d).
Proof. each_operation op; read_literal; reflexivity. Qed.

Lemma props_alarmDedupeStringSuffix op props (d : disambiguator_param op) :
  argument op props d !! "alarmDedupeStringSuffix"
  = match Kind.alarmDedupeStringSuffix op with
    | Some suffix => Some (Str suffix)
    | None => props !! "alarmDedupeStringSuffix"
    end.
Proof.
  each_operation op; read_literal; try reflexivity.
  all: rewrite lookup_empty; destruct (props !! _); reflexivity.
Qed.

(** The two resolved fields: a property of that very name on [props] would
    replace the resolved value, since the spread comes after it; the
    Specification declares no such property. *)
Lemma props_comparisonOperator op props (d : disambiguator_param op) :
  argument op props d !! "comparisonOperator"
  = Some (default
            (nullish (get props "comparisonOperatorOverride")
                     (Operator (Kind.comparisonOperator op)))
            (props !! "comparisonOperator")).
Proof.
  each_operation op; read_literal;
    destruct (props !! "comparisonOperator"); reflexivity.
Qed.

Lemma props_treatMissingData op props (d : disambiguator_param op) :
  argument op props d !! "treatMissingData"
  = Some (default
            (nullish (get props "treatMissingDataOverride")
                     (MissingData (Kind.treatMissingData op)))
            (props !! "treatMissingData")).
Proof.
  each_operation op; read_literal;
    destruct (props !! "treatMissingData"); reflexivity.
Qed.

(** Any other property comes from [props]. *)
Lemma define_agree m (acc acc' : object) k :
  acc !! k = acc' !! k → define acc m !! k = define acc' m !! k.
Proof.
  intros H. destruct m as [k' v|o].
  - destruct (decide (k' = k)) as [->|Hne].
    + by rewrite !lookup_define_field_eq.
    + by rewrite !lookup_define_field_ne.
  - rewrite !lookup_define_spread. by rewrite H.
Qed.

Lemma props_unresolved_agree op props (d : disambiguator_param op) k :
  k ≠ "treatMissingData" → k ≠ "comparisonOperator" →
  argument op props d !! k = Kind.unresolved_props op props d !! k.
Proof.
  intros H1 H2.
  each_operation op; unfold literal; cbn [foldl app].
  all: repeat apply define_agree.
  all: by rewrite !lookup_define_field_ne.
Qed.

(** Reading the object of a Specification. *)
Lemma lookup_property_ne {A} k (inj : A → JsValue) field (o : object) k' :
  k ≠ k' → property k inj field o !! k' = o !! k'.
Proof. intros. rewrite lookup_property. destruct field; by rewrite ?decide_False. Qed.

Lemma lookup_property_eq {A} k (inj : A → JsValue) field (o : object) :
  property k inj field o !! k
  = match field with Some a => Some (inj a) | None => o !! k end.
Proof. rewrite lookup_property. destruct field; by rewrite ?decide_True. Qed.

Ltac read_specification :=
  unfold get, to_object;
  repeat first
    [ rewrite lookup_property_ne by done
    | rewrite lookup_property_eq
    | rewrite lookup_singleton_eq
    | rewrite lookup_singleton_ne by done ].

Lemma specification_threshold op s :
  get (to_object (Kind.thresholdField op) s) (Kind.thresholdField op)
  = Num (threshold s).
Proof. destruct op; unfold Kind.thresholdField; by read_specification. Qed.

Lemma specification_comparisonOperatorOverride op s :
  get (to_object (Kind.thresholdField op) s) "comparisonOperatorOverride"
  = from_option Operator Undefined (comparisonOperatorOverride s).
Proof.
  destruct op; unfold Kind.thresholdField; read_specification;
    by destruct (comparisonOperatorOverride s).
Qed.

Lemma specification_treatMissingDataOverride op s :
  get (to_object (Kind.thresholdField op) s) "treatMissingDataOverride"
  = from_option MissingData Undefined (treatMissingDataOverride s).
Proof.
  destruct op; unfold Kind.thresholdField; read_specification;
    by destruct (treatMissingDataOverride s).
Qed.

Lemma specification_alarmNameOverride op s :
  get (to_object (Kind.thresholdField op) s) "alarmNameOverride"
  = from_option Str Undefined (alarmNameOverride s).
Proof.
  destruct op; unfold Kind.thresholdField; read_specification;
    by destruct (alarmNameOverride s).
Qed.

Lemma specification_alarmDescriptionOverride op s :
  get (to_object (Kind.thresholdField op) s) "alarmDescriptionOverride"
  = from_option Str Undefined (alarmDescriptionOverride s).
Proof.
  destruct op; unfold Kind.thresholdField; read_specification;
    by destruct (alarmDescriptionOverride s).
Qed.

Lemma specification_alarmDedupeStringOverride op s :
  get (to_object (Kind.thresholdField op) s) "alarmDedupeStringOverride"
  = from_option Str Undefined (alarmDedupeStringOverride s).
Proof.
  destruct op; unfold Kind.thresholdField; read_specification;
    by destruct (alarmDedupeStringOverride s).
Qed.

Lemma specification_evaluationPeriods op s :
  get (to_object (Kind.thresholdField op) s) "evaluationPeriods"
  = from_option Num Undefined (evaluationPeriods s).
Proof.
  destruct op; unfold Kind.thresholdField; read_specification;
    by destruct (evaluationPeriods s).
Qed.

Lemma specification_datapointsToAlarm op s :
  get (to_object (Kind.thresholdField op) s) "datapointsToAlarm"
  = from_option Num Undefined (datapointsToAlarm s).
Proof.
  destruct op; unfold Kind.thresholdField; read_specification;
    by destruct (datapointsToAlarm s).
Qed.

(** The Specification carries none of the properties an operation sets,
    its own [disambiguator] apart. *)
Lemma specification_undeclared op s k :
  k ∈ [ "treatMissingData"; "comparisonOperator"; "threshold";
        "alarmNameSuffix"; "alarmDescription"; "alarmDedupeStringSuffix" ] →
  to_object (Kind.thresholdField op) s !! k = None.
Proof.
  intros Hk.
  repeat (apply elem_of_cons in Hk as [->|Hk]); [..|by apply elem_of_nil in Hk].
  all: destruct op; unfold Kind.thresholdField; by read_specification.
Qed.

(** Every property the operations do not set is that of [props]. *)
Lemma props_passthrough op props (d : disambiguator_param op) k :
  k ∉ [ "treatMissingData"; "comparisonOperator"; "disambiguator";
        "threshold"; "alarmNameSuffix"; "alarmDescription";
        "alarmDedupeStringSuffix" ] →
  argument op props d !! k = props !! k.
Proof.
  intros Hk. rewrite !not_elem_of_cons in Hk. destruct_and!.
  each_operation op; unfold literal; cbn [foldl].
  all: repeat (rewrite lookup_define_field_ne by done).
  all: rewrite lookup_define_spread.
  all: repeat (rewrite lookup_define_field_ne by done).
  all: rewrite lookup_empty; by destruct (props !! k).
Qed.

End Argument.

(** ** Claims about the argument of the operations *)

Section ArgumentClaims.
Import KinesisAlarmFactory.

Lemma specification_resolved_fields
    (op : operation) (s : Specification) (d : disambiguator_param op) :
  argument op (to_object (Kind.thresholdField op) s) d
    !! "comparisonOperator"
  = Some (Operator (default (Kind.comparisonOperator op)
                            (comparisonOperatorOverride s)))
  ∧ argument op (to_object (Kind.thresholdField op) s) d
      !! "treatMissingData"
    = Some (MissingData (default (Kind.treatMissingData op)
                                 (treatMissingDataOverride s))).
Proof.
  rewrite props_comparisonOperator, props_treatMissingData.
  rewrite !specification_undeclared by set_solver.
  rewrite specification_comparisonOperatorOverride,
    specification_treatMissingDataOverride.
  split.
  - by destruct (comparisonOperatorOverride s).
  - by destruct (treatMissingDataOverride s).
Qed.

(** C1. For every operation and every Specification, the operation is one
    call to the Alarm Factory, and the comparison operator in the argument
    of that call is the Specification's [comparisonOperatorOverride] when
    it is set and the default of the alarm kind otherwise; likewise the
    missing-data policy with [treatMissingDataOverride]. *)
Theorem override_precedence {S E : Type}
    (alarmFactory : Metric → object → Eff S E AlarmDefinition)
    (op : operation) (metric : Metric) (s : Specification)
    (d : disambiguator_param op) :
  let props := to_object (Kind.thresholdField op) s in
  let arg := argument op props d in
  KinesisAlarmFactory.invoke alarmFactory op metric props d
  = alarmFactory metric arg
  ∧ arg !! "comparisonOperator"
    = Some (Operator (default (Kind.comparisonOperator op)
                              (comparisonOperatorOverride s)))
  ∧ arg !! "treatMissingData"
    = Some (MissingData (default (Kind.treatMissingData op)
                                 (treatMissingDataOverride s))).
Proof.
  cbv zeta. split; [by destruct op|]. apply specification_resolved_fields.
Qed.

(** C4. When [treatMissingDataOverride] is absent, the operation calls the
    Alarm Factory with the missing-data policy of the kind: [MISSING] for
    iterator-max-age and old-age-of-record, [NOT_BREACHING] for
    records-throttled, records-failed and the two provisioned-throughput
    kinds. *)
Theorem default_missing_data {S E : Type}
    (alarmFactory : Metric → object → Eff S E AlarmDefinition)
    (op : operation) (metric : Metric) (s : Specification)
    (d : disambiguator_param op) :
  treatMissingDataOverride s = None →
  let props := to_object (Kind.thresholdField op) s in
  let arg := argument op props d in
  KinesisAlarmFactory.invoke alarmFactory op metric props d
  = alarmFactory metric arg
  ∧ arg !! "treatMissingData"
    = Some (MissingData
              match op with
              | IteratorMaxAge | OldAgeOfRecord => MISSING
              | PutRecordsThrottled | PutRecordsFailed
              | ProvisionedReadThroughputExceeded
              | ProvisionedWriteThroughputExceeded => NOT_BREACHING
              end).
Proof.
  intros Hnone. cbv zeta. split; [by destruct op|].
  rewrite props_treatMissingData.
  rewrite specification_undeclared by set_solver.
  rewrite specification_treatMissingDataOverride, Hnone.
  by destruct op.
Qed.

Lemma default_missing_data_witness :
  let metric := MetricRef "DataFreshness" in
  let fresh := to_object "ageOfRecordThreshold" (plain (Finite 900)) in
  let failed := to_object "maxRecordsFailedThreshold" (plain (Finite 3)) in
  let f := exampleFactory "OrdersStream" in
  (addOldAgeOfRecordAlarm (AlarmFactory.addAlarm f) metric fresh None
   = AlarmFactory.addAlarm f metric (addOldAgeOfRecordAlarm_props fresh None)
   ∧ addOldAgeOfRecordAlarm_props fresh None !! "treatMissingData"
     = Some (MissingData MISSING))
  ∧ (addPutRecordsFailedAlarm (AlarmFactory.addAlarm f) metric failed
       (Some "a")
     = AlarmFactory.addAlarm f metric
         (addPutRecordsFailedAlarm_props failed (Some "a"))
     ∧ addPutRecordsFailedAlarm_props failed (Some "a") !! "treatMissingData"
       = Some (MissingData NOT_BREACHING)).
Proof.
  cbv zeta. split.
  - apply (default_missing_data
             (AlarmFactory.addAlarm (exampleFactory "OrdersStream"))
             OldAgeOfRecord (MetricRef "DataFreshness")
             (plain (Finite 900)) None).
    reflexivity.
  - apply (default_missing_data
             (AlarmFactory.addAlarm (exampleFactory "OrdersStream"))
             PutRecordsFailed (MetricRef "DataFreshness")
             (plain (Finite 3)) (Some "a")).
    reflexivity.
Defined.

(** C10 (as the code has it). Every operation is one call to the Alarm
    Factory, and for every object given as [props] the argument of that
    call has [threshold] equal to the threshold property of the kind, and
    [alarmNameSuffix], [alarmDescription] and [disambiguator] as the
    operation fixes them, whatever properties [props] has. The four
    operations that have a dedupe suffix fix [alarmDedupeStringSuffix] in
    the same way. The two provisioned-throughput operations write no
    [alarmDedupeStringSuffix] of their own: the argument has the one of
    [props], so none for a Specification, which declares no such property;
    their [disambiguator] is always a string. *)
Theorem kind_constants_fixed {S E : Type}
    (alarmFactory : Metric → object → Eff S E AlarmDefinition)
    (op : operation) (metric : Metric) (props : object) (s : Specification)
    (d : disambiguator_param op) :
  let arg := argument op props d in
  let threshold := get props (Kind.thresholdField op) in
  KinesisAlarmFactory.invoke alarmFactory op metric props d
  = alarmFactory metric arg
  ∧ arg !! "threshold" = Some threshold
  ∧ arg !! "alarmNameSuffix" = Some (Str (Kind.alarmNameSuffix op))
  ∧ arg !! "alarmDescription"
    = Some (Str (Kind.alarmDescription op threshold))
  ∧ arg !! "disambiguator" = Some (disambiguator_value d)
  ∧ match Kind.alarmDedupeStringSuffix op with
    | Some suffix => arg !! "alarmDedupeStringSuffix" = Some (Str suffix)
    | None =>
        arg !! "alarmDedupeStringSuffix" = props !! "alarmDedupeStringSuffix"
        ∧ argument op (to_object (Kind.thresholdField op) s) d
            !! "alarmDedupeStringSuffix" = None
        ∧ ∃ str, disambiguator_value d = Str str
    end
  ∧ Kind.alarmDedupeStringSuffix ProvisionedReadThroughputExceeded = None
  ∧ Kind.alarmDedupeStringSuffix ProvisionedWriteThroughputExceeded = None.
Proof.
  cbv zeta. split; [by destruct op|].
  split; [apply props_threshold|].
  split; [apply props_alarmNameSuffix|].
  split; [apply props_alarmDescription|].
  split; [apply props_disambiguator|].
  split; [|done].
  pose proof (props_alarmDedupeStringSuffix op props d) as Hp.
  pose proof (props_alarmDedupeStringSuffix op
                (to_object (Kind.thresholdField op) s) d) as Hs.
  destruct (Kind.alarmDedupeStringSuffix op) eqn:Hsuffix; [done|].
  split; [done|]. split.
  - rewrite Hs. apply specification_undeclared. set_solver.
  - destruct op; try discriminate Hsuffix; by eexists.
Qed.

(** C10, as stated, fails: given a [props] object that has a property
    [alarmDedupeStringSuffix] of its own, either provisioned-throughput
    operation calls the Alarm Factory with that dedupe suffix, where the
    claim has it pass none at all for every [props]. *)
Lemma provisioned_passes_props_dedupe_suffix :
  let props : object :=
    {[ "maxRecordsThrottledThreshold" := Num (Finite 5);
       "alarmDedupeStringSuffix" := Str "AnyThroughput" ]} in
  let read := addProvisionedReadThroughputExceededAlarm_props props "r" in
  let write := addProvisionedWriteThroughputExceededAlarm_props props "r" in
  (∀ (S E : Type) (alarmFactory : Metric → object → Eff S E AlarmDefinition)
     (metric : Metric),
     addProvisionedReadThroughputExceededAlarm alarmFactory metric props "r"
     = alarmFactory metric read
     ∧ addProvisionedWriteThroughputExceededAlarm alarmFactory metric props "r"
       = alarmFactory metric write)
  ∧ read !! "alarmDedupeStringSuffix" = Some (Str "AnyThroughput")
  ∧ write !! "alarmDedupeStringSuffix" = Some (Str "AnyThroughput")
  ∧ read !! "alarmDedupeStringSuffix" ≠ None.
Proof.
  cbv zeta.
  assert (addProvisionedReadThroughputExceededAlarm_props
            ({[ "maxRecordsThrottledThreshold" := Num (Finite 5);
                "alarmDedupeStringSuffix" := Str "AnyThroughput" ]} : object)
            "r" !! "alarmDedupeStringSuffix" = Some (Str "AnyThroughput"))
    as Hread by (vm_compute; reflexivity).
  assert (addProvisionedWriteThroughputExceededAlarm_props
            ({[ "maxRecordsThrottledThreshold" := Num (Finite 5);
                "alarmDedupeStringSuffix" := Str "AnyThroughput" ]} : object)
            "r" !! "alarmDedupeStringSuffix" = Some (Str "AnyThroughput"))
    as Hwrite by (vm_compute; reflexivity).
  split; [by intros|]. split; [exact Hread|]. split; [exact Hwrite|].
  by rewrite Hread.
Qed.

End ArgumentClaims.


(** ** The alarm the Alarm Factory resolves for a Specification *)

Section Resolution.
Import KinesisAlarmFactory.

Lemma get_lookup (o : object) k v : o !! k = Some v → get o k = v.
Proof. unfold get. by intros ->. Qed.

Lemma get_passthrough op props (d : disambiguator_param op) k :
  k ∉ [ "treatMissingData"; "comparisonOperator"; "disambiguator";
        "threshold"; "alarmNameSuffix"; "alarmDescription";
        "alarmDedupeStringSuffix" ] →
  get (argument op props d) k = get props k.
Proof. intros Hk. unfold get. by rewrite props_passthrough. Qed.

(** The sum of what the factory reads of the argument built for a
    Specification. *)
Lemma resolveAlarm_specification (f : AlarmFactory.t) (metric : Metric)
    (op : operation) (s : Specification) (d : disambiguator_param op) :
  AlarmFactory.resolveAlarm f metric
    (argument op (to_object (Kind.thresholdField op) s) d)
  = let operator :=
      Operator (default (Kind.comparisonOperator op)
                        (comparisonOperatorOverride s)) in
    let prefix := AlarmFactory.namePrefix f in
    {| metric := metric;
       resolvedThreshold := Num (threshold s);
       resolvedComparisonOperator := operator;
       resolvedMissingDataPolicy :=
         MissingData (default (Kind.treatMissingData op)
                              (treatMissingDataOverride s));
       resolvedEvaluationPeriods :=
         from_option Num (AlarmFactory.globalDefault f "evaluationPeriods")
                     (evaluationPeriods s);
       resolvedDatapointsToAlarm :=
         from_option Num (AlarmFactory.globalDefault f "datapointsToAlarm")
                     (datapointsToAlarm s);
       name :=
         from_option Str
           (Str (AlarmFactory.sanitize f
                   (prefix +:+ "-" +:+ Kind.alarmNameSuffix op
                    +:+ AlarmFactory.disambiguatorSuffix
                          (disambiguator_value d))))
           (alarmNameOverride s);
       description :=
         from_option Str
           (Str (Kind.alarmDescription op (Num (threshold s))))
           (alarmDescriptionOverride s);
       dedupeKey :=
         from_option Str
           (Str (default (prefix +:+ "-" +:+ Kind.alarmNameSuffix op)
                         (aggregateDedupeKey op)))
           (alarmDedupeStringOverride s);
       annotation :=
         {| value := Num (threshold s);
            label :=
              AlarmFactory.annotationLabel f operator (Num (threshold s)) |}
    |}.
Proof.
  pose proof (specification_resolved_fields op s d) as [Hop Hmd].
  unfold AlarmFactory.resolveAlarm, AlarmFactory.resolve,
    AlarmFactory.alarmName, AlarmFactory.generatedName,
    AlarmFactory.unsanitizedName, AlarmFactory.alarmDescription,
    AlarmFactory.alarmDedupeKey.
  cbn [String.append].
  rewrite (get_lookup _ _ _ (props_threshold _ _ _)).
  rewrite (get_lookup _ _ _ Hop), (get_lookup _ _ _ Hmd).
  rewrite (get_lookup _ _ _ (props_alarmNameSuffix _ _ _)).
  rewrite (get_lookup _ _ _ (props_alarmDescription _ _ _)).
  rewrite (get_lookup _ _ _ (props_disambiguator _ _ _)).
  rewrite !get_passthrough by (rewrite !not_elem_of_cons; split_and!; try done; apply not_elem_of_nil).
  rewrite specification_threshold, specification_comparisonOperatorOverride,
    specification_treatMissingDataOverride, specification_alarmNameOverride,
    specification_alarmDescriptionOverride,
    specification_alarmDedupeStringOverride,
    specification_evaluationPeriods, specification_datapointsToAlarm.
  unfold get at 1 2. rewrite props_alarmDedupeStringSuffix.
  rewrite specification_undeclared by set_solver.
  cbv zeta. f_equal.
  - by destruct (comparisonOperatorOverride s).
  - by destruct (treatMissingDataOverride s).
  - by destruct (evaluationPeriods s).
  - by destruct (datapointsToAlarm s).
  - by destruct (alarmNameOverride s).
  - by destruct (alarmDescriptionOverride s).
  - destruct (alarmDedupeStringOverride s); [done|].
    by destruct op.
  - f_equal. by destruct (comparisonOperatorOverride s).
Qed.

End Resolution.

(** ** Strings *)

Lemma string_app_cons c (s t : string) :
  String c s +:+ t = String c (s +:+ t).
Proof. reflexivity. Qed.

Lemma string_app_nil_r (s : string) : s +:+ "" = s.
Proof.
  induction s as [|c s IH]; [reflexivity|]. by rewrite string_app_cons, IH.
Qed.

Lemma string_length_app (s t : string) :
  String.length (s +:+ t) = (String.length s + String.length t)%nat.
Proof.
  induction s as [|c s IH]; [reflexivity|].
  rewrite string_app_cons. cbn [String.length]. by rewrite IH.
Qed.

Lemma string_app_inj_r (s1 s2 t : string) : s1 +:+ t = s2 +:+ t → s1 = s2.
Proof.
  revert s2. induction s1 as [|c s1 IH]; intros [|c' s2] H.
  - reflexivity.
  - apply (f_equal String.length) in H.
    rewrite !string_length_app in H. cbn [String.length] in H. lia.
  - apply (f_equal String.length) in H.
    rewrite !string_length_app in H. cbn [String.length] in H. lia.
  - rewrite !string_app_cons in H. injection H as -> H. f_equal. by apply IH.
Qed.

Lemma contains_suffix (s t : string) : contains (s +:+ t) t.
Proof. exists s, "". by rewrite string_app_nil_r. Qed.

Lemma keep_identifier_chars_fixes (s : string) :
  (∀ c s1 s2, s = s1 +:+ String c s2 → identifier_char c = true) →
  keep_identifier_chars s = s.
Proof.
  induction s as [|c s IH]; intros H; [reflexivity|]. cbn.
  rewrite (H c "" s) by reflexivity. f_equal. apply IH.
  intros c' s1 s2 ->. by apply (H c' (String c s1) s2).
Qed.

(** ** Running the Alarm Factory *)

Section Running.
Import KinesisAlarmFactory.

Lemma validThreshold_spec (v : JsValue) :
  AlarmFactory.validThreshold v = true ↔ ∃ z, v = Num (Finite z) ∧ 0 ≤ z.
Proof.
  unfold AlarmFactory.validThreshold, AlarmFactory.inValidRange, isFinite.
  split.
  - destruct v as [| |[z| | |]| | |]; try discriminate.
    cbn. intros Hz%bool_decide_eq_true. by exists z.
  - intros (z & -> & Hz). cbn. by apply bool_decide_eq_true.
Qed.

Lemma validThreshold_not_finite (v : JsValue) :
  isFinite v = false → AlarmFactory.validThreshold v = false.
Proof. unfold AlarmFactory.validThreshold. by intros ->. Qed.

Lemma validThreshold_negative (z : Z) :
  z < 0 → AlarmFactory.validThreshold (Num (Finite z)) = false.
Proof.
  intros Hz. unfold AlarmFactory.validThreshold, AlarmFactory.inValidRange.
  cbn. apply bool_decide_eq_false. lia.
Qed.

Lemma addAlarm_invalid f metric props scope :
  AlarmFactory.validThreshold (get props "threshold") = false →
  AlarmFactory.addAlarm f metric props scope
  = (scope, inl AlarmFactory.InvalidThresholdError).
Proof. unfold AlarmFactory.addAlarm. by intros ->. Qed.

Lemma addAlarm_fresh f metric props scope :
  AlarmFactory.validThreshold (get props "threshold") = true →
  name (AlarmFactory.resolveAlarm f metric props) ∉ name <$> scope →
  AlarmFactory.addAlarm f metric props scope
  = (scope ++ [AlarmFactory.resolveAlarm f metric props],
     inr (AlarmFactory.resolveAlarm f metric props)).
Proof.
  unfold AlarmFactory.addAlarm, AlarmFactory.register. intros -> Hfresh.
  by rewrite decide_False.
Qed.

Lemma addAlarm_returns f metric props scope scope' alarm :
  AlarmFactory.addAlarm f metric props scope = (scope', inr alarm) →
  alarm = AlarmFactory.resolveAlarm f metric props
  ∧ scope' = scope ++ [alarm]
  ∧ AlarmFactory.validThreshold (get props "threshold") = true
  ∧ name alarm ∉ name <$> scope.
Proof.
  unfold AlarmFactory.addAlarm, AlarmFactory.register, throw.
  destruct (AlarmFactory.validThreshold _); [|discriminate].
  destruct (decide _) as [|Hfresh]; [discriminate|].
  intros [= <- <-]. done.
Qed.

(** An operation over the Alarm Factory is the factory run on the
    argument of the operation. *)
Lemma operation_run f op metric props (d : disambiguator_param op) :
  KinesisAlarmFactory.invoke (AlarmFactory.addAlarm f) op metric props d
  = AlarmFactory.addAlarm f metric (argument op props d).
Proof. by destruct op. Qed.

(** What the argument and the unresolved delegation have in common is all
    that the Alarm Factory reads: it lets the override win once more. *)
Lemma unresolved_comparisonOperator op props (d : disambiguator_param op) :
  Kind.unresolved_props op props d !! "comparisonOperator"
  = Some (default (Operator (Kind.comparisonOperator op))
                  (props !! "comparisonOperator")).
Proof.
  destruct op; unfold Kind.unresolved_props; cbn [Kind.alarmDedupeStringSuffix app];
    read_literal; by destruct (props !! "comparisonOperator").
Qed.

Lemma unresolved_treatMissingData op props (d : disambiguator_param op) :
  Kind.unresolved_props op props d !! "treatMissingData"
  = Some (default (MissingData (Kind.treatMissingData op))
                  (props !! "treatMissingData")).
Proof.
  destruct op; unfold Kind.unresolved_props; cbn [Kind.alarmDedupeStringSuffix app];
    read_literal; by destruct (props !! "treatMissingData").
Qed.

Lemma get_unresolved op props (d : disambiguator_param op) k :
  k ≠ "treatMissingData" → k ≠ "comparisonOperator" →
  get (argument op props d) k = get (Kind.unresolved_props op props d) k.
Proof. intros. unfold get. by rewrite props_unresolved_agree. Qed.

Lemma resolve_unresolved f op props (d : disambiguator_param op) :
  AlarmFactory.resolve f (argument op props d) "comparisonOperator"
  = AlarmFactory.resolve f (Kind.unresolved_props op props d)
      "comparisonOperator"
  ∧ AlarmFactory.resolve f (argument op props d) "treatMissingData"
    = AlarmFactory.resolve f (Kind.unresolved_props op props d)
        "treatMissingData".
Proof.
  unfold AlarmFactory.resolve.
  change ("comparisonOperator" +:+ "Override") with "comparisonOperatorOverride".
  change ("treatMissingData" +:+ "Override") with "treatMissingDataOverride".
  rewrite <- (get_unresolved op props d "comparisonOperatorOverride") by done.
  rewrite <- (get_unresolved op props d "treatMissingDataOverride") by done.
  rewrite (get_passthrough op props d "comparisonOperatorOverride")
    by (rewrite !not_elem_of_cons; split_and!; try done; apply not_elem_of_nil).
  rewrite (get_passthrough op props d "treatMissingDataOverride")
    by (rewrite !not_elem_of_cons; split_and!; try done; apply not_elem_of_nil).
  rewrite (get_lookup _ _ _ (props_comparisonOperator op props d)),
    (get_lookup _ _ _ (props_treatMissingData op props d)),
    (get_lookup _ _ _ (unresolved_comparisonOperator op props d)),
    (get_lookup _ _ _ (unresolved_treatMissingData op props d)).
  split.
  - destruct (props !! "comparisonOperator"); [done|]. cbn.
    by destruct (get props "comparisonOperatorOverride").
  - destruct (props !! "treatMissingData"); [done|]. cbn.
    by destruct (get props "treatMissingDataOverride").
Qed.

(** The Alarm Definition is the one the unresolved delegation gives. *)
Lemma central_result_of_unresolved f op metric props
    (d : disambiguator_param op) :
  AlarmFactory.addAlarm f metric (argument op props d)
  = AlarmFactory.addAlarm f metric (Kind.unresolved_props op props d).
Proof.
  assert (AlarmFactory.resolveAlarm f metric (argument op props d)
          = AlarmFactory.resolveAlarm f metric
              (Kind.unresolved_props op props d)) as Hsame.
  { destruct (resolve_unresolved f op props d) as [Hop Hmd].
    unfold AlarmFactory.resolveAlarm, AlarmFactory.alarmName,
      AlarmFactory.generatedName, AlarmFactory.unsanitizedName,
      AlarmFactory.alarmDescription, AlarmFactory.alarmDedupeKey.
    rewrite Hop, Hmd. by rewrite !get_unresolved by done. }
  unfold AlarmFactory.addAlarm. rewrite Hsame.
  by rewrite (get_unresolved op props d "threshold").
Qed.

End Running.

(** ** Who resolves the overrides *)

Section Delegation.
Import KinesisAlarmFactory.

(** C3 (as the code has it). Every operation is one call to the injected
    Alarm Factory, whose argument carries the comparison operator and the
    missing-data policy already resolved by the operation itself, as
    [override ?? default of the kind]; every other property of the
    argument is the one of the unresolved delegation (the Specification as
    given, next to the kind constants). The Alarm Factory lets the
    override win once more, so that the result is the one it gives for the
    unresolved delegation. *)
Theorem facade_resolves_then_delegates {S E : Type}
    (alarmFactory : Metric → object → Eff S E AlarmDefinition)
    (f : AlarmFactory.t)
    (op : operation) (metric : Metric) (props : object)
    (d : disambiguator_param op) :
  let arg := argument op props d in
  KinesisAlarmFactory.invoke alarmFactory op metric props d
  = alarmFactory metric arg
  ∧ arg !! "comparisonOperator"
    = Some (default
              (nullish (get props "comparisonOperatorOverride")
                       (Operator (Kind.comparisonOperator op)))
              (props !! "comparisonOperator"))
  ∧ arg !! "treatMissingData"
    = Some (default
              (nullish (get props "treatMissingDataOverride")
                       (MissingData (Kind.treatMissingData op)))
              (props !! "treatMissingData"))
  ∧ (∀ k, k ≠ "treatMissingData" → k ≠ "comparisonOperator" →
          arg !! k = Kind.unresolved_props op props d !! k)
  ∧ KinesisAlarmFactory.invoke (AlarmFactory.addAlarm f) op metric props d
    = AlarmFactory.addAlarm f metric (Kind.unresolved_props op props d).
Proof.
  cbv zeta. split; [by destruct op|].
  split; [apply props_comparisonOperator|].
  split; [apply props_treatMissingData|].
  split; [intros k; apply props_unresolved_agree|].
  rewrite operation_run. apply central_result_of_unresolved.
Qed.

(** C3, as stated, fails: for a records-throttled Specification with
    [comparisonOperatorOverride = LESS_THAN_THRESHOLD], the argument handed
    to the Alarm Factory is not the unresolved delegation: its comparison
    operator is already the override, where the unresolved delegation has
    the default of the kind. *)
Lemma facade_resolves_override_itself :
  let props := to_object "maxRecordsThrottledThreshold" lessThan50 in
  argument PutRecordsThrottled props None !! "comparisonOperator"
  = Some (Operator LESS_THAN_THRESHOLD)
  ∧ Kind.unresolved_props PutRecordsThrottled props None
      !! "comparisonOperator"
    = Some (Operator GREATER_THAN_THRESHOLD)
  ∧ argument PutRecordsThrottled props None
    ≠ Kind.unresolved_props PutRecordsThrottled props None.
Proof.
  cbv zeta.
  assert (argument PutRecordsThrottled
            (to_object "maxRecordsThrottledThreshold" lessThan50) None
          !! "comparisonOperator" = Some (Operator LESS_THAN_THRESHOLD)) as H1
    by (vm_compute; reflexivity).
  assert (Kind.unresolved_props PutRecordsThrottled
            (to_object "maxRecordsThrottledThreshold" lessThan50) None
          !! "comparisonOperator" = Some (Operator GREATER_THAN_THRESHOLD)) as H2
    by (vm_compute; reflexivity).
  split; [exact H1|]. split; [exact H2|].
  intros Heq. rewrite Heq, H2 in H1. discriminate H1.
Qed.

End Delegation.

(** ** Claims about the created alarm *)

Section AlarmClaims.
Import KinesisAlarmFactory.

Lemma string_app_assoc (s t u : string) : (s +:+ t) +:+ u = s +:+ t +:+ u.
Proof.
  induction s as [|c s IH]; [reflexivity|]. by rewrite !string_app_cons, IH.
Qed.

(** C5. A records-throttled Specification with threshold 50 and no
    override, for the resource "OrdersStream", creates an alarm with
    operator greater-than, missing-data policy not-breaching, name
    "OrdersStream-PutRecordsThrottled", a description containing "50" and
    dedupe key "PutRecordsThrottled"; the alarm is registered with the
    scope. The sanitizer is assumed to leave that name, which is made of
    letters and a hyphen, as it is, and the name to be free in the scope. *)
Theorem records_throttled_scenario
    (f : AlarmFactory.t) (metric : Metric) (scope : AlarmFactory.Scope) :
  AlarmFactory.namePrefix f = "OrdersStream" →
  AlarmFactory.sanitize f "OrdersStream-PutRecordsThrottled"
  = "OrdersStream-PutRecordsThrottled" →
  Str "OrdersStream-PutRecordsThrottled" ∉ name <$> scope →
  ∃ alarm,
    addPutRecordsThrottledAlarm (AlarmFactory.addAlarm f) metric
      (to_object "maxRecordsThrottledThreshold" (plain (Finite 50))) None scope
    = (scope ++ [alarm], inr alarm)
    ∧ resolvedComparisonOperator alarm = Operator GREATER_THAN_THRESHOLD
    ∧ resolvedMissingDataPolicy alarm = MissingData NOT_BREACHING
    ∧ name alarm = Str "OrdersStream-PutRecordsThrottled"
    ∧ (∃ text, description alarm = Str text ∧ contains text "50")
    ∧ dedupeKey alarm = Str "PutRecordsThrottled".
Proof.
  intros Hprefix Hsanitize Hfresh.
  pose proof (resolveAlarm_specification f metric PutRecordsThrottled
                (plain (Finite 50)) None) as Hresolved.
  cbv zeta in Hresolved. rewrite Hprefix in Hresolved.
  change ("OrdersStream" +:+ "-" +:+ Kind.alarmNameSuffix PutRecordsThrottled
          +:+ AlarmFactory.disambiguatorSuffix
                (@disambiguator_value PutRecordsThrottled None))
    with "OrdersStream-PutRecordsThrottled" in Hresolved.
  rewrite Hsanitize in Hresolved.
  change (argument PutRecordsThrottled
            (to_object (Kind.thresholdField PutRecordsThrottled)
               (plain (Finite 50))) None)
    with (addPutRecordsThrottledAlarm_props
            (to_object "maxRecordsThrottledThreshold" (plain (Finite 50))) None)
    in Hresolved.
  eexists. split.
  { unfold addPutRecordsThrottledAlarm. apply addAlarm_fresh.
    - reflexivity.
    - rewrite Hresolved. exact Hfresh. }
  rewrite Hresolved. cbn.
  split; [done|]. split; [done|]. split; [done|]. split; [|done].
  eexists. split; [reflexivity|].
  apply (contains_suffix
           "Number of throttled PutRecords exceeded threshold of " "50").
Qed.

Lemma records_throttled_scenario_witness :
  ∃ alarm,
    addPutRecordsThrottledAlarm
      (AlarmFactory.addAlarm (exampleFactory "OrdersStream"))
      (MetricRef "ThrottledRecords")
      (to_object "maxRecordsThrottledThreshold" (plain (Finite 50))) None []
    = ([] ++ [alarm], inr alarm)
    ∧ resolvedComparisonOperator alarm = Operator GREATER_THAN_THRESHOLD
    ∧ resolvedMissingDataPolicy alarm = MissingData NOT_BREACHING
    ∧ name alarm = Str "OrdersStream-PutRecordsThrottled"
    ∧ (∃ text, description alarm = Str text ∧ contains text "50")
    ∧ dedupeKey alarm = Str "PutRecordsThrottled".
Proof.
  apply (records_throttled_scenario (exampleFactory "OrdersStream")
           (MetricRef "ThrottledRecords") []).
  - reflexivity.
  - reflexivity.
  - apply not_elem_of_nil.
Defined.

(** C6 (as the model has it). For every records-throttled Specification
    without [alarmNameOverride], supplying a disambiguator changes the
    alarm name by appending "-{disambiguator}" after the kind suffix
    (before sanitizing) and changes nothing else of the Alarm Definition:
    the dedupe key, threshold, operator, missing-data policy, windows,
    description and annotation are those of the undisambiguated alarm. *)
Theorem disambiguator_changes_name_only
    (f : AlarmFactory.t) (metric : Metric) (s : Specification) (d : string) :
  alarmNameOverride s = None →
  let props := to_object "maxRecordsThrottledThreshold" s in
  let plainAlarm :=
    AlarmFactory.resolveAlarm f metric
      (addPutRecordsThrottledAlarm_props props None) in
  let alarm :=
    AlarmFactory.resolveAlarm f metric
      (addPutRecordsThrottledAlarm_props props (Some d)) in
  let base := AlarmFactory.namePrefix f +:+ "-PutRecordsThrottled" in
  name plainAlarm = Str (AlarmFactory.sanitize f base)
  ∧ name alarm = Str (AlarmFactory.sanitize f (base +:+ "-" +:+ d))
  ∧ dedupeKey alarm = dedupeKey plainAlarm
  ∧ resolvedThreshold alarm = resolvedThreshold plainAlarm
  ∧ resolvedComparisonOperator alarm = resolvedComparisonOperator plainAlarm
  ∧ resolvedMissingDataPolicy alarm = resolvedMissingDataPolicy plainAlarm
  ∧ resolvedEvaluationPeriods alarm = resolvedEvaluationPeriods plainAlarm
  ∧ resolvedDatapointsToAlarm alarm = resolvedDatapointsToAlarm plainAlarm
  ∧ description alarm = description plainAlarm
  ∧ annotation alarm = annotation plainAlarm
  ∧ (∀ scope scope' created,
       addPutRecordsThrottledAlarm (AlarmFactory.addAlarm f) metric props
         (Some d) scope = (scope', inr created) →
       created = alarm).
Proof.
  intros Hname. cbv zeta.
  pose proof (resolveAlarm_specification f metric PutRecordsThrottled s None)
    as H0.
  pose proof (resolveAlarm_specification f metric PutRecordsThrottled s
                (Some d)) as H1.
  cbv zeta in H0, H1. rewrite Hname in H0, H1.
  change (argument PutRecordsThrottled
            (to_object (Kind.thresholdField PutRecordsThrottled) s))
    with (addPutRecordsThrottledAlarm_props
            (to_object "maxRecordsThrottledThreshold" s)) in H0, H1.
  split_and!; try (rewrite H0, H1; reflexivity).
  - rewrite H0. reflexivity.
  - rewrite H1, string_app_assoc. reflexivity.
  - intros scope scope' created Hrun.
    by apply addAlarm_returns in Hrun as [-> _].
Qed.

Lemma disambiguator_changes_name_only_witness :
  let props := to_object "maxRecordsThrottledThreshold" (plain (Finite 50)) in
  let f := exampleFactory "OrdersStream" in
  let alarm :=
    AlarmFactory.resolveAlarm f (MetricRef "ThrottledRecords")
      (addPutRecordsThrottledAlarm_props props (Some "shard-0")) in
  name alarm = Str "OrdersStream-PutRecordsThrottled-shard-0"
  ∧ dedupeKey alarm = Str "PutRecordsThrottled"
  ∧ addPutRecordsThrottledAlarm (AlarmFactory.addAlarm f)
      (MetricRef "ThrottledRecords") props (Some "shard-0") []
    = ([alarm], inr alarm).
Proof.
  cbv zeta.
  pose proof (disambiguator_changes_name_only (exampleFactory "OrdersStream")
                (MetricRef "ThrottledRecords") (plain (Finite 50)) "shard-0"
                eq_refl) as H.
  cbv zeta in H. destruct H as (_ & Hname & Hkey & _).
  split; [rewrite Hname; reflexivity|].
  split; [rewrite Hkey; reflexivity|].
  apply addAlarm_fresh; [reflexivity|apply not_elem_of_nil].
Defined.

(** C6, as stated, fails for a Specification with a name override: the
    override replaces the generated name, so the alarm is called
    "ThrottleAlarm" with and without the disambiguator "shard-0". *)
Lemma name_override_ignores_disambiguator :
  let props := to_object "maxRecordsThrottledThreshold" renamed50 in
  let f := exampleFactory "OrdersStream" in
  let metric := MetricRef "ThrottledRecords" in
  let plainAlarm :=
    AlarmFactory.resolveAlarm f metric
      (addPutRecordsThrottledAlarm_props props None) in
  let alarm :=
    AlarmFactory.resolveAlarm f metric
      (addPutRecordsThrottledAlarm_props props (Some "shard-0")) in
  addPutRecordsThrottledAlarm (AlarmFactory.addAlarm f) metric props None []
  = ([plainAlarm], inr plainAlarm)
  ∧ addPutRecordsThrottledAlarm (AlarmFactory.addAlarm f) metric props
      (Some "shard-0") []
    = ([alarm], inr alarm)
  ∧ name plainAlarm = Str "ThrottleAlarm"
  ∧ name alarm = Str "ThrottleAlarm"
  ∧ name alarm ≠ Str "OrdersStream-PutRecordsThrottled-shard-0".
Proof.
  cbv zeta. split_and!.
  - apply addAlarm_fresh; [reflexivity|apply not_elem_of_nil].
  - apply addAlarm_fresh; [reflexivity|apply not_elem_of_nil].
  - reflexivity.
  - reflexivity.
  - vm_compute. discriminate.
Qed.

End AlarmClaims.

(** ** Dedupe keys and thresholds *)

Section DedupeAndThreshold.
Import KinesisAlarmFactory.

(** The dedupe key of the alarm of any operation, without an override:
    the kind's dedupe suffix when the kind aggregates across resources,
    else [{resource}-{alarmNameSuffix}]. *)
Lemma dedupeKey_specification f metric op s (d : disambiguator_param op) :
  alarmDedupeStringOverride s = None →
  dedupeKey (AlarmFactory.resolveAlarm f metric
               (argument op (to_object (Kind.thresholdField op) s) d))
  = Str (default
           (AlarmFactory.namePrefix f +:+ "-" +:+ Kind.alarmNameSuffix op)
           (aggregateDedupeKey op)).
Proof.
  intros H. rewrite resolveAlarm_specification. cbv zeta.
  cbn [dedupeKey]. by rewrite H.
Qed.

(** C2. For any two Specifications with no dedupe override, on two
    resources of different names: the alarm that
    [addPutRecordsThrottledAlarm] creates has the dedupe key
    "PutRecordsThrottled" on either resource, and the alarm that
    [addOldAgeOfRecordAlarm] (delivery freshness) creates has the
    resource-scoped dedupe key [{resource}-Record-Max-Age], different on
    the two resources. *)
Theorem dedupe_key_scoping
    (f1 f2 : AlarmFactory.t) (m1 m2 : Metric) (s1 s2 : Specification)
    (d1 d2 : option string) :
  alarmDedupeStringOverride s1 = None →
  alarmDedupeStringOverride s2 = None →
  AlarmFactory.namePrefix f1 ≠ AlarmFactory.namePrefix f2 →
  let throttled f m s d :=
    AlarmFactory.resolveAlarm f m
      (addPutRecordsThrottledAlarm_props
         (to_object "maxRecordsThrottledThreshold" s) d) in
  let fresh f m s d :=
    AlarmFactory.resolveAlarm f m
      (addOldAgeOfRecordAlarm_props (to_object "ageOfRecordThreshold" s) d) in
  let creates_throttled f m s d :=
    ∀ scope scope' created,
      addPutRecordsThrottledAlarm (AlarmFactory.addAlarm f) m
        (to_object "maxRecordsThrottledThreshold" s) d scope
      = (scope', inr created) →
      created = throttled f m s d in
  let creates_fresh f m s d :=
    ∀ scope scope' created,
      addOldAgeOfRecordAlarm (AlarmFactory.addAlarm f) m
        (to_object "ageOfRecordThreshold" s) d scope
      = (scope', inr created) →
      created = fresh f m s d in
  creates_throttled f1 m1 s1 d1
  ∧ creates_throttled f2 m2 s2 d2
  ∧ creates_fresh f1 m1 s1 d1
  ∧ creates_fresh f2 m2 s2 d2
  ∧ dedupeKey (throttled f1 m1 s1 d1) = Str "PutRecordsThrottled"
  ∧ dedupeKey (throttled f2 m2 s2 d2) = Str "PutRecordsThrottled"
  ∧ dedupeKey (fresh f1 m1 s1 d1)
    = Str (AlarmFactory.namePrefix f1 +:+ "-Record-Max-Age")
  ∧ dedupeKey (fresh f2 m2 s2 d2)
    = Str (AlarmFactory.namePrefix f2 +:+ "-Record-Max-Age")
  ∧ dedupeKey (fresh f1 m1 s1 d1) ≠ dedupeKey (fresh f2 m2 s2 d2).
Proof.
  intros H1 H2 Hne. cbv beta zeta.
  pose proof (dedupeKey_specification f1 m1 PutRecordsThrottled s1 d1 H1)
    as Ht1.
  pose proof (dedupeKey_specification f2 m2 PutRecordsThrottled s2 d2 H2)
    as Ht2.
  pose proof (dedupeKey_specification f1 m1 OldAgeOfRecord s1 d1 H1) as Hf1.
  pose proof (dedupeKey_specification f2 m2 OldAgeOfRecord s2 d2 H2) as Hf2.
  change (argument PutRecordsThrottled
            (to_object (Kind.thresholdField PutRecordsThrottled) ?s))
    with (addPutRecordsThrottledAlarm_props
            (to_object "maxRecordsThrottledThreshold" s)) in Ht1, Ht2.
  change (argument OldAgeOfRecord
            (to_object (Kind.thresholdField OldAgeOfRecord) ?s))
    with (addOldAgeOfRecordAlarm_props (to_object "ageOfRecordThreshold" s))
    in Hf1, Hf2.
  split_and!.
  - intros scope scope' created Hrun.
    by apply addAlarm_returns in Hrun as [-> _].
  - intros scope scope' created Hrun.
    by apply addAlarm_returns in Hrun as [-> _].
  - intros scope scope' created Hrun.
    by apply addAlarm_returns in Hrun as [-> _].
  - intros scope scope' created Hrun.
    by apply addAlarm_returns in Hrun as [-> _].
  - exact Ht1.
  - exact Ht2.
  - exact Hf1.
  - exact Hf2.
  - rewrite Hf1, Hf2. intros [= Heq]. apply Hne.
    by apply string_app_inj_r in Heq.
Qed.

Lemma dedupe_key_scoping_witness :
  let throttled := to_object "maxRecordsThrottledThreshold" (plain (Finite 5)) in
  let fresh := to_object "ageOfRecordThreshold" (plain (Finite 5)) in
  let A := AlarmFactory.addAlarm (exampleFactory "StreamA") in
  let B := AlarmFactory.addAlarm (exampleFactory "StreamB") in
  ∃ a1 a2 b1 b2,
    addPutRecordsThrottledAlarm A (MetricRef "M") throttled None []
    = ([a1], inr a1)
    ∧ addPutRecordsThrottledAlarm B (MetricRef "M") throttled None []
      = ([a2], inr a2)
    ∧ addOldAgeOfRecordAlarm A (MetricRef "M") fresh None [] = ([b1], inr b1)
    ∧ addOldAgeOfRecordAlarm B (MetricRef "M") fresh None [] = ([b2], inr b2)
    ∧ dedupeKey a1 = dedupeKey a2
    ∧ dedupeKey b1 = Str "StreamA-Record-Max-Age"
    ∧ dedupeKey b2 = Str "StreamB-Record-Max-Age"
    ∧ dedupeKey b1 ≠ dedupeKey b2.
Proof.
  cbv zeta.
  assert (AlarmFactory.namePrefix (exampleFactory "StreamA")
          ≠ AlarmFactory.namePrefix (exampleFactory "StreamB")) as Hne
    by discriminate.
  pose proof (dedupe_key_scoping (exampleFactory "StreamA")
                (exampleFactory "StreamB") (MetricRef "M") (MetricRef "M")
                (plain (Finite 5)) (plain (Finite 5)) None None
                eq_refl eq_refl Hne) as H.
  cbv beta zeta in H.
  destruct H as (_ & _ & _ & _ & Ha1 & Ha2 & Hb1 & Hb2 & Hdiff).
  exists (AlarmFactory.resolveAlarm (exampleFactory "StreamA") (MetricRef "M")
            (addPutRecordsThrottledAlarm_props
               (to_object "maxRecordsThrottledThreshold" (plain (Finite 5)))
               None)),
         (AlarmFactory.resolveAlarm (exampleFactory "StreamB") (MetricRef "M")
            (addPutRecordsThrottledAlarm_props
               (to_object "maxRecordsThrottledThreshold" (plain (Finite 5)))
               None)),
         (AlarmFactory.resolveAlarm (exampleFactory "StreamA") (MetricRef "M")
            (addOldAgeOfRecordAlarm_props
               (to_object "ageOfRecordThreshold" (plain (Finite 5))) None)),
         (AlarmFactory.resolveAlarm (exampleFactory "StreamB") (MetricRef "M")
            (addOldAgeOfRecordAlarm_props
               (to_object "ageOfRecordThreshold" (plain (Finite 5))) None)).
  split_and!.
  - apply addAlarm_fresh; [reflexivity|apply not_elem_of_nil].
  - apply addAlarm_fresh; [reflexivity|apply not_elem_of_nil].
  - apply addAlarm_fresh; [reflexivity|apply not_elem_of_nil].
  - apply addAlarm_fresh; [reflexivity|apply not_elem_of_nil].
  - by rewrite Ha1, Ha2.
  - exact Hb1.
  - exact Hb2.
  - exact Hdiff.
Defined.

(** C9. Over the Alarm Factory, every operation whose threshold property
    is missing or not a finite number fails with [InvalidThresholdError],
    and so does one whose threshold is below zero, out of the valid range;
    a failed creation leaves the scope as it was. With a valid threshold,
    finite and not negative, and a name that is free in the scope, the
    operation does not throw: the alarm is registered and returned. *)
Theorem invalid_threshold_rejected
    (f : AlarmFactory.t) (op : operation) (metric : Metric) (props : object)
    (d : disambiguator_param op) (scope : AlarmFactory.Scope) :
  let run :=
    KinesisAlarmFactory.invoke (AlarmFactory.addAlarm f) op metric props d
      scope in
  let alarm := AlarmFactory.resolveAlarm f metric (argument op props d) in
  let threshold := get props (Kind.thresholdField op) in
  (isFinite threshold = false →
   run = (scope, inl AlarmFactory.InvalidThresholdError))
  ∧ (∀ z, threshold = Num (Finite z) → z < 0 →
       run = (scope, inl AlarmFactory.InvalidThresholdError))
  ∧ (∀ z, threshold = Num (Finite z) → 0 ≤ z →
       name alarm ∉ name <$> scope →
       run = (scope ++ [alarm], inr alarm))
  ∧ (∀ scope' error, run = (scope', inl error) → scope' = scope).
Proof.
  cbv zeta. rewrite operation_run.
  pose proof (get_lookup _ _ _ (props_threshold op props d)) as Hthreshold.
  split_and!.
  - intros Hbad. apply addAlarm_invalid. rewrite Hthreshold.
    by apply validThreshold_not_finite.
  - intros z Hz Hneg. apply addAlarm_invalid. rewrite Hthreshold, Hz.
    by apply validThreshold_negative.
  - intros z Hz Hpos Hfresh. apply addAlarm_fresh; [|done].
    rewrite Hthreshold. apply validThreshold_spec. by exists z.
  - intros scope' error.
    unfold AlarmFactory.addAlarm, AlarmFactory.register, throw.
    destruct (AlarmFactory.validThreshold _); [|by intros [= <- _]].
    destruct (decide _); by intros [= <- _].
Qed.

Lemma invalid_threshold_rejected_witness :
  let f := exampleFactory "OrdersStream" in
  let metric := MetricRef "ThrottledRecords" in
  let registered :=
    [ AlarmFactory.resolveAlarm f metric
        (addPutRecordsThrottledAlarm_props
           (to_object "maxRecordsThrottledThreshold" (plain (Finite 50)))
           (Some "a")) ] in
  addPutRecordsThrottledAlarm (AlarmFactory.addAlarm f) metric
    (∅ : object) (Some "b") registered
  = (registered, inl AlarmFactory.InvalidThresholdError)
  ∧ addPutRecordsThrottledAlarm (AlarmFactory.addAlarm f) metric
      ({[ "maxRecordsThrottledThreshold" := Num NaN ]} : object) (Some "b")
      registered
    = (registered, inl AlarmFactory.InvalidThresholdError)
  ∧ addPutRecordsThrottledAlarm (AlarmFactory.addAlarm f) metric
      ({[ "maxRecordsThrottledThreshold" := Num (Finite (-1)) ]} : object)
      (Some "b") registered
    = (registered, inl AlarmFactory.InvalidThresholdError)
  ∧ ∃ alarm,
      addPutRecordsThrottledAlarm (AlarmFactory.addAlarm f) metric
        ({[ "maxRecordsThrottledThreshold" := Num (Finite 7) ]} : object)
        (Some "b") registered
      = (registered ++ [alarm], inr alarm).
Proof.
  cbv zeta. split_and!.
  - apply (invalid_threshold_rejected (exampleFactory "OrdersStream")
             PutRecordsThrottled). reflexivity.
  - apply (invalid_threshold_rejected (exampleFactory "OrdersStream")
             PutRecordsThrottled). reflexivity.
  - apply (invalid_threshold_rejected (exampleFactory "OrdersStream")
             PutRecordsThrottled) with (z := -1); [reflexivity|lia].
  - eexists.
    apply (invalid_threshold_rejected (exampleFactory "OrdersStream")
             PutRecordsThrottled) with (z := 7).
    + reflexivity.
    + lia.
    + intros H. apply list_elem_of_singleton in H. vm_compute in H.
      discriminate H.
Defined.

End DedupeAndThreshold.

(** ** The monitoring unit *)

Section UnitRuns.
Import KinesisFirehoseMonitoring.
Context {S E : Type}.
Variable alarmFactory : Metric → object → Eff S E AlarmDefinition.



(** One family of alarms: a loop whose body creates the alarm of the entry
    with [metric] and the argument [mk entry], pushes its annotation and
    registers it. *)
Section Family.
Variable metric : Metric.
Variable mk : string * object → object.
Variable push : t → HorizontalAnnotation → t.
Variable body : string * object → t → Eff (@World S E) E t.
Hypothesis body_eq : ∀ entry this,
  body entry this
  = (createdAlarm <~ logged_addAlarm alarmFactory metric (mk entry) ;;
     ret (addAlarm (push this (annotation createdAlarm)) createdAlarm)).

Lemma family_step entry this w :
  body entry this w
  = match alarmFactory metric (mk entry) (ext w) with
    | (s', inr a) =>
        ({| ext := s';
            trace := trace w ++ [AddAlarm metric (mk entry) (inr a)] |},
         inr (addAlarm (push this (annotation a)) a))
    | (s', inl e) =>
        ({| ext := s';
            trace := trace w ++ [AddAlarm metric (mk entry) (inl e)] |},
         inl e)
    end.
Proof.
  rewrite body_eq. unfold bind, logged_addAlarm, ret.
  by destruct (alarmFactory metric (mk entry) (ext w)) as [s' [e|a]].
Qed.

Lemma family_loop_done entries this w w' this' :
  forEach body entries this w = (w', inr this') →
  ∃ created,
    length created = length entries
    ∧ trace w'
      = trace w
        ++ zip_with (λ entry a, AddAlarm metric (mk entry) (inr a))
             entries created
    ∧ this' = foldl (λ this a, addAlarm (push this (annotation a)) a)
                this created.
Proof.
  revert this w. induction entries as [|entry entries IH]; intros this w Hrun.
  - cbn in Hrun. injection Hrun as <- <-. exists [].
    by rewrite app_nil_r.
  - cbn [forEach] in Hrun. unfold bind in Hrun. rewrite family_step in Hrun.
    destruct (alarmFactory metric (mk entry) (ext w)) as [s' [e|a]];
      [discriminate|].
    apply IH in Hrun as (created & Hlen & Htrace & Hthis).
    exists (a :: created). cbn [length zip_with foldl trace] in *.
    split; [by rewrite Hlen|]. split; [|done].
    by rewrite Htrace, <- app_assoc.
Qed.


End Family.

Variable throttledRecordsMetric : Metric.
Variable maxAgeofRecordsMetric : Metric.

Lemma fold_recordCount (this : t) created :
  let this' :=
    foldl (λ this a, addAlarm (push_recordCountAnnotations this (annotation a)) a)
      this created in
  recordCountAnnotations this'
  = recordCountAnnotations this ++ (annotation <$> created)
  ∧ ageAnnotations this' = ageAnnotations this
  ∧ alarms this' = alarms this ++ created.
Proof.
  cbv zeta. revert this.
  induction created as [|a created IH]; intros this; cbn [foldl fmap list_fmap].
  - by rewrite !app_nil_r.
  - destruct (IH (addAlarm (push_recordCountAnnotations this (annotation a)) a))
      as (-> & -> & ->).
    cbn. by rewrite <- !app_assoc.
Qed.

Lemma fold_age (this : t) created :
  let this' :=
    foldl (λ this a, addAlarm (push_ageAnnotations this (annotation a)) a)
      this created in
  recordCountAnnotations this' = recordCountAnnotations this
  ∧ ageAnnotations this' = ageAnnotations this ++ (annotation <$> created)
  ∧ alarms this' = alarms this ++ created.
Proof.
  cbv zeta. revert this.
  induction created as [|a created IH]; intros this; cbn [foldl fmap list_fmap].
  - by rewrite !app_nil_r.
  - destruct (IH (addAlarm (push_ageAnnotations this (annotation a)) a))
      as (-> & -> & ->).
    cbn. by rewrite <- !app_assoc.
Qed.

Lemma recordsThrottled_body_eq entry this :
  recordsThrottled_body alarmFactory throttledRecordsMetric entry this
  = (createdAlarm <~
       logged_addAlarm alarmFactory throttledRecordsMetric
         (KinesisAlarmFactory.addPutRecordsThrottledAlarm_props entry.2
            (Some entry.1)) ;;
     ret (addAlarm
            (push_recordCountAnnotations this (annotation createdAlarm))
            createdAlarm)).
Proof. by destruct entry. Qed.

Lemma deliveryFreshness_body_eq entry this :
  deliveryFreshness_body alarmFactory maxAgeofRecordsMetric entry this
  = (createdAlarm <~
       logged_addAlarm alarmFactory maxAgeofRecordsMetric
         (KinesisAlarmFactory.addOldAgeOfRecordAlarm_props entry.2
            (Some entry.1)) ;;
     ret (addAlarm (push_ageAnnotations this (annotation createdAlarm))
            createdAlarm)).
Proof. by destruct entry. Qed.

End UnitRuns.

Section UnitConstruction.
Import KinesisFirehoseMonitoring.
Context {S E : Type}.
Variable alarmFactory : Metric → object → Eff S E AlarmDefinition.
Variable throttledRecordsMetric : Metric.
Variable maxAgeofRecordsMetric : Metric.



(** A construction that returns. *)
Lemma constructor_done (props : @Props S E) w w' unit :
  constructor alarmFactory throttledRecordsMetric maxAgeofRecordsMetric props w
  = (w', inr unit) →
  ∃ throttled fresh,
    length throttled = length (for_in (addRecordsThrottledAlarm props))
    ∧ length fresh = length (for_in (addDeliveryFreshnessAlarm props))
    ∧ trace w'
      = trace w
        ++ zip_with (recordsThrottled_call throttledRecordsMetric)
             (for_in (addRecordsThrottledAlarm props)) throttled
        ++ zip_with (deliveryFreshness_call maxAgeofRecordsMetric)
             (for_in (addDeliveryFreshnessAlarm props)) fresh
        ++ match useCreatedAlarms props with
           | Some _ => [Consume (throttled ++ fresh)]
           | None => []
           end
    ∧ recordCountAnnotations unit = annotation <$> throttled
    ∧ ageAnnotations unit = annotation <$> fresh
    ∧ createdAlarms unit = throttled ++ fresh.
Proof.
  unfold constructor, bind. intros Hrun.
  destruct (forEach (recordsThrottled_body _ _) _ _ w)
    as [w1 [e1|this1]] eqn:Hloop1; [discriminate|].
  destruct (forEach (deliveryFreshness_body _ _) _ _ w1)
    as [w2 [e2|this2]] eqn:Hloop2; [discriminate|].
  apply (family_loop_done alarmFactory _ _ _ _
           (recordsThrottled_body_eq alarmFactory throttledRecordsMetric))
    in Hloop1 as (throttled & Hlen1 & Htrace1 & ->).
  apply (family_loop_done alarmFactory _ _ _ _
           (deliveryFreshness_body_eq alarmFactory maxAgeofRecordsMetric))
    in Hloop2 as (fresh & Hlen2 & Htrace2 & ->).
  match type of Hrun with
  | context [foldl ?step (foldl ?step1 ?this0 throttled) fresh] =>
      destruct (fold_recordCount this0 throttled) as (Hc1 & Ha1 & Hr1);
      destruct (fold_age (foldl step1 this0 throttled) fresh)
        as (Hc2 & Ha2 & Hr2)
  end.
  cbv zeta in Hc1, Ha1, Hr1, Hc2, Ha2, Hr2.
  rewrite Hc1 in Hc2. rewrite Ha1 in Ha2. rewrite Hr1 in Hr2.
  cbn [recordCountAnnotations ageAnnotations alarms app] in Hc2, Ha2, Hr2.
  exists throttled, fresh. split; [done|]. split; [done|].
  destruct (useCreatedAlarms props) as [consumer|].
  - unfold logged_consume, createdAlarms in Hrun. rewrite Hr2 in Hrun.
    destruct (consume consumer (throttled ++ fresh) (ext w2)) as [s' [e|[]]];
      [discriminate|].
    unfold ret in Hrun. injection Hrun as <- <-. cbn [trace].
    split; [|done].
    rewrite Htrace2, Htrace1, <- !app_assoc. reflexivity.
  - unfold ret in Hrun. injection Hrun as <- <-.
    split; [|done].
    rewrite Htrace2, Htrace1, app_nil_r, <- !app_assoc. reflexivity.
Qed.


End UnitConstruction.

(** ** Claims about the monitoring unit *)

Section UnitClaims.
Import KinesisFirehoseMonitoring.

(** A record without array-index names is visited in creation order. *)
Lemma for_in_named {A} (o : dictionary A) :
  Forall (λ kv, array_index kv.1 = None) o → for_in (Some o) = o.
Proof.
  intros Hnamed. unfold for_in, indexed, named.
  assert (omap (λ kv : string * A,
                  match array_index kv.1 with
                  | Some n => Some (n, kv)
                  | None => None
                  end) o = []) as ->.
  { induction Hnamed as [|kv o Hkv _ IH]; [reflexivity|].
    cbn [omap list_omap]. by rewrite Hkv. }
  cbn. induction Hnamed as [|kv o Hkv _ IH]; [reflexivity|].
  rewrite filter_cons_True by done. by f_equal.
Qed.

Example for_in_abc :
  (for_in (Some [("a", 1%nat); ("b", 2%nat); ("c", 3%nat)])).*1
  = ["a"; "b"; "c"].
Proof. reflexivity. Qed.

(** Names that are array indices come first, in numeric order. *)
Example for_in_indices :
  (for_in (Some [("b", 1%nat); ("10", 2%nat); ("a", 3%nat); ("2", 4%nat);
                 ("02", 5%nat)])).*1
  = ["2"; "10"; "b"; "a"; "02"].
Proof. reflexivity. Qed.

Lemma recordsThrottled_body_appends {S E}
    (alarmFactory : Metric → object → Eff S E AlarmDefinition) metric
    entry this w w' this' :
  recordsThrottled_body alarmFactory metric entry this w = (w', inr this') →
  ∃ a, recordCountAnnotations this' = recordCountAnnotations this ++ [a]
       ∧ ageAnnotations this' = ageAnnotations this.
Proof.
  rewrite (family_step alarmFactory _ _ _ _
             (recordsThrottled_body_eq alarmFactory metric)).
  destruct (alarmFactory _ _ _) as [s' [e|a]]; [discriminate|].
  intros [= <- <-]. by exists (annotation a).
Qed.

Lemma deliveryFreshness_body_appends {S E}
    (alarmFactory : Metric → object → Eff S E AlarmDefinition) metric
    entry this w w' this' :
  deliveryFreshness_body alarmFactory metric entry this w = (w', inr this') →
  ∃ a, ageAnnotations this' = ageAnnotations this ++ [a]
       ∧ recordCountAnnotations this' = recordCountAnnotations this.
Proof.
  rewrite (family_step alarmFactory _ _ _ _
             (deliveryFreshness_body_eq alarmFactory metric)).
  destruct (alarmFactory _ _ _) as [s' [e|a]]; [discriminate|].
  intros [= <- <-]. by exists (annotation a).
Qed.

(** C7. When the construction of the unit succeeds, [recordCountAnnotations]
    holds exactly the annotations of the records-throttled alarms and
    [ageAnnotations] exactly those of the delivery-freshness alarms, each
    in the order [for ... in] visits the mapping: the i-th annotation is
    that of the alarm returned by the i-th call, which was made for the
    i-th entry with its name as disambiguator. Each step of a loop appends
    one annotation to the collection of its own family and leaves the
    other collection as it is. *)
Theorem annotations_follow_iteration_order {S E : Type}
    (alarmFactory : Metric → object → Eff S E AlarmDefinition)
    (throttledRecordsMetric maxAgeofRecordsMetric : Metric)
    (props : @Props S E) (w w' : @World S E) (unit : t) :
  constructor alarmFactory throttledRecordsMetric maxAgeofRecordsMetric props w
  = (w', inr unit) →
  (∃ throttled fresh,
     length throttled = length (for_in (addRecordsThrottledAlarm props))
     ∧ length fresh = length (for_in (addDeliveryFreshnessAlarm props))
     ∧ trace w'
       = trace w
         ++ zip_with (recordsThrottled_call throttledRecordsMetric)
              (for_in (addRecordsThrottledAlarm props)) throttled
         ++ zip_with (deliveryFreshness_call maxAgeofRecordsMetric)
              (for_in (addDeliveryFreshnessAlarm props)) fresh
         ++ match useCreatedAlarms props with
            | Some _ => [Consume (throttled ++ fresh)]
            | None => []
            end
     ∧ recordCountAnnotations unit = annotation <$> throttled
     ∧ ageAnnotations unit = annotation <$> fresh
     ∧ createdAlarms unit = throttled ++ fresh)
  ∧ (∀ entry this w1 w2 this',
       recordsThrottled_body alarmFactory throttledRecordsMetric entry this w1
       = (w2, inr this') →
       ∃ a, recordCountAnnotations this' = recordCountAnnotations this ++ [a]
            ∧ ageAnnotations this' = ageAnnotations this)
  ∧ (∀ entry this w1 w2 this',
       deliveryFreshness_body alarmFactory maxAgeofRecordsMetric entry this w1
       = (w2, inr this') →
       ∃ a, ageAnnotations this' = ageAnnotations this ++ [a]
            ∧ recordCountAnnotations this' = recordCountAnnotations this).
Proof.
  intros Hrun. split; [|split].
  - by apply constructor_done in Hrun.
  - intros *. apply recordsThrottled_body_appends.
  - intros *. apply deliveryFreshness_body_appends.
Qed.

Lemma annotations_follow_iteration_order_witness :
  ∃ w' unit,
    constructor (AlarmFactory.addAlarm (exampleFactory "OrdersStream"))
      (MetricRef "ThrottledRecords") (MetricRef "DataFreshness")
      exampleProps emptyWorld
    = (w', inr unit)
    ∧ value <$> recordCountAnnotations unit
      = [Num (Finite 1); Num (Finite 2); Num (Finite 3)]
    ∧ value <$> ageAnnotations unit = [Num (Finite 900)]
    ∧ ∃ throttled fresh,
        length throttled = 3%nat
        ∧ length fresh = 1%nat
        ∧ recordCountAnnotations unit = annotation <$> throttled
        ∧ ageAnnotations unit = annotation <$> fresh
        ∧ createdAlarms unit = throttled ++ fresh.
Proof.
  destruct (constructor (AlarmFactory.addAlarm (exampleFactory "OrdersStream"))
              (MetricRef "ThrottledRecords") (MetricRef "DataFreshness")
              exampleProps emptyWorld) as [w' [e|unit]] eqn:Hrun.
  - exfalso. vm_compute in Hrun. discriminate Hrun.
  - exists w', unit. split; [reflexivity|].
    destruct (annotations_follow_iteration_order _ _ _ _ _ _ _ Hrun)
      as [(throttled & fresh & Hlen1 & Hlen2 & _ & Hcount & Hage & Hall) _].
    vm_compute in Hrun. injection Hrun as _ Hunit.
    split; [by rewrite <- Hunit|]. split; [by rewrite <- Hunit|].
    exists throttled, fresh. done.
Defined.


End UnitClaims.

(** * Further properties *)

(** ** The argument of the operations, for any object *)

Section ArgumentFacts.
Import KinesisAlarmFactory.

(** X1. The spread of [props] comes after the two resolved fields: when
    [props] has a property [comparisonOperator] or [treatMissingData] of
    its own, the argument carries that value, whatever the override and
    the default of the kind are. *)
Theorem spread_shadows_resolved_fields
    (op : operation) (props : object) (d : disambiguator_param op)
    (field : string) (v : JsValue) :
  field ∈ ["comparisonOperator"; "treatMissingData"] →
  props !! field = Some v →
  argument op props d !! field = Some v.
Proof.
  intros Hfield Hown.
  apply elem_of_cons in Hfield as [->|Hfield];
    [|apply list_elem_of_singleton in Hfield as ->].
  - by rewrite props_comparisonOperator, Hown.
  - by rewrite props_treatMissingData, Hown.
Qed.

Lemma spread_shadows_resolved_fields_witness :
  argument PutRecordsThrottled
    (<["comparisonOperator" := Operator GREATER_THAN_OR_EQUAL_TO_THRESHOLD]>
       (to_object "maxRecordsThrottledThreshold" lessThan50))
    None
    !! "comparisonOperator"
  = Some (Operator GREATER_THAN_OR_EQUAL_TO_THRESHOLD).
Proof.
  apply (spread_shadows_resolved_fields PutRecordsThrottled).
  - apply list_elem_of_here.
  - reflexivity.
Defined.

(** The names an operation writes into its argument. *)
Lemma props_written op props (d : disambiguator_param op) k :
  k ∈ [ "treatMissingData"; "comparisonOperator"; "disambiguator";
        "threshold"; "alarmNameSuffix"; "alarmDescription" ] →
  is_Some (argument op props d !! k).
Proof.
  intros Hk.
  repeat (apply elem_of_cons in Hk as [->|Hk]); [..|by apply elem_of_nil in Hk].
  - by rewrite props_treatMissingData.
  - by rewrite props_comparisonOperator.
  - by rewrite props_disambiguator.
  - by rewrite props_threshold.
  - by rewrite props_alarmNameSuffix.
  - by rewrite props_alarmDescription.
Qed.

(** X2. An operation drops nothing of [props]: the property names of its
    argument are those of [props] together with the six names it writes
    (and [alarmDedupeStringSuffix] for the four operations that pass one),
    and every property under another name is that of [props], unchanged;
    in particular the overrides and the window sizes reach the alarm
    factory as given. *)
Theorem argument_keeps_props
    (op : operation) (props : object) (d : disambiguator_param op) :
  dom (argument op props d)
  = dom props
    ∪ list_to_set
        ([ "treatMissingData"; "comparisonOperator"; "disambiguator";
           "threshold"; "alarmNameSuffix"; "alarmDescription" ]
         ++ match Kind.alarmDedupeStringSuffix op with
            | Some _ => [ "alarmDedupeStringSuffix" ]
            | None => []
            end)
  ∧ ∀ k,
      k ∉ [ "treatMissingData"; "comparisonOperator"; "disambiguator";
            "threshold"; "alarmNameSuffix"; "alarmDescription";
            "alarmDedupeStringSuffix" ] →
      argument op props d !! k = props !! k.
Proof.
  split; [|intros k; apply props_passthrough].
  apply set_eq. intros k.
  rewrite elem_of_union, elem_of_list_to_set, elem_of_app, !elem_of_dom.
  destruct (decide (k ∈ [ "treatMissingData"; "comparisonOperator";
                          "disambiguator"; "threshold"; "alarmNameSuffix";
                          "alarmDescription" ])) as [Hk|Hk].
  { split; [by right; left|]. intros _. by apply props_written. }
  destruct (decide (k = "alarmDedupeStringSuffix")) as [->|Hne].
  { rewrite props_alarmDedupeStringSuffix.
    destruct (Kind.alarmDedupeStringSuffix op).
    - split; [right; right; apply list_elem_of_here|done].
    - split; [by left|]. intros [?|[?|Hnil]]; [done|done|].
      by apply elem_of_nil in Hnil. }
  rewrite props_passthrough.
  - split; [by left|]. intros [?|[?|Hin]]; [done|done|].
    destruct (Kind.alarmDedupeStringSuffix op).
    + by apply list_elem_of_singleton in Hin.
    + by apply elem_of_nil in Hin.
  - rewrite !not_elem_of_cons in Hk. rewrite !not_elem_of_cons.
    destruct_and!. split_and!; done || apply not_elem_of_nil.
Qed.

(** X3. The operations do not check the threshold: when [props] lacks the
    threshold property of the kind, the alarm factory is still called,
    with [threshold] set to [undefined], and the description of the four
    count kinds then reads "undefined" where the number would be. *)
Theorem missing_threshold_passed_on {S E : Type}
    (alarmFactory : Metric → object → Eff S E AlarmDefinition)
    (op : operation) (metric : Metric) (props : object)
    (d : disambiguator_param op) :
  props !! Kind.thresholdField op = None →
  let arg := argument op props d in
  invoke alarmFactory op metric props d = alarmFactory metric arg
  ∧ arg !! "threshold" = Some Undefined
  ∧ arg !! "alarmDescription"
    = Some (Str
        match op with
        | IteratorMaxAge => "Iterator Max Age is too high."
        | OldAgeOfRecord => "Max Age of Record in firehose is too high."
        | PutRecordsThrottled =>
            "Number of throttled PutRecords exceeded threshold of undefined"
        | PutRecordsFailed =>
            "Number of failed PutRecords exceeded threshold of undefined"
        | ProvisionedReadThroughputExceeded =>
            "Number of records resulting in read throughput capacity throttling reached the threshold of undefined."
        | ProvisionedWriteThroughputExceeded =>
            "Number of records resulting in write throughput capacity throttling reached the threshold of undefined."
        end).
Proof.
  intros Hmissing. cbv zeta.
  assert (get props (Kind.thresholdField op) = Undefined) as Hget
    by (unfold get; by rewrite Hmissing).
  split; [by destruct op|].
  rewrite props_threshold, props_alarmDescription, Hget.
  split; [done|]. by destruct op.
Qed.

Lemma missing_threshold_passed_on_witness :
  let arg :=
    argument PutRecordsFailed
      ({[ "maxRecordsThrottledThreshold" := Num (Finite 5) ]} : object)
      (Some "a") in
  arg !! "threshold" = Some Undefined
  ∧ arg !! "alarmDescription"
    = Some (Str "Number of failed PutRecords exceeded threshold of undefined").
Proof.
  cbv zeta.
  assert (({[ "maxRecordsThrottledThreshold" := Num (Finite 5) ]} : object)
            !! Kind.thresholdField PutRecordsFailed = None) as Hmissing
    by (vm_compute; reflexivity).
  destruct (missing_threshold_passed_on
              (AlarmFactory.addAlarm (exampleFactory "OrdersStream"))
              PutRecordsFailed (MetricRef "M")
              ({[ "maxRecordsThrottledThreshold" := Num (Finite 5) ]} : object)
              (Some "a") Hmissing) as (_ & Hthreshold & Hdescription).
  split; [exact Hthreshold|exact Hdescription].
Defined.

(** X4. For the four count kinds the description the operation hands to
    the Alarm Factory tells the threshold: for thresholds that are safe
    integers, two calls of one operation carry the same description only
    if the thresholds are equal. The descriptions of the two age kinds do
    not mention the threshold at all. *)
Theorem description_determines_threshold {S E : Type}
    (alarmFactory : Metric → object → Eff S E AlarmDefinition)
    (op : operation) (metric : Metric) (props1 props2 : object)
    (d1 d2 : disambiguator_param op) (z1 z2 : Z) :
  get props1 (Kind.thresholdField op) = Num (Finite z1) →
  get props2 (Kind.thresholdField op) = Num (Finite z2) →
  safe_integer z1 →
  safe_integer z2 →
  let arg1 := argument op props1 d1 in
  let arg2 := argument op props2 d2 in
  invoke alarmFactory op metric props1 d1 = alarmFactory metric arg1
  ∧ invoke alarmFactory op metric props2 d2 = alarmFactory metric arg2
  ∧ match op with
    | IteratorMaxAge | OldAgeOfRecord =>
        arg1 !! "alarmDescription" = arg2 !! "alarmDescription"
    | _ =>
        arg1 !! "alarmDescription" = arg2 !! "alarmDescription" → z1 = z2
    end.
Proof.
  intros H1 H2 _ _. cbv zeta.
  split; [by destruct op|]. split; [by destruct op|].
  rewrite !props_alarmDescription, H1, H2.
  destruct op; try reflexivity; unfold Kind.alarmDescription;
    cbn [to_string number_str]; intros [= Heq];
    apply (inj (String.app _)) in Heq;
    try apply string_app_inj_r in Heq;
    by apply (inj pretty) in Heq.
Qed.

Lemma description_determines_threshold_witness :
  let f := exampleFactory "OrdersStream" in
  let metric := MetricRef "DataFreshness" in
  let props1 : object := {[ "ageOfRecordThreshold" := Num (Finite 60) ]} in
  let props2 : object := {[ "ageOfRecordThreshold" := Num (Finite 900) ]} in
  addOldAgeOfRecordAlarm (AlarmFactory.addAlarm f) metric props1 None
  = AlarmFactory.addAlarm f metric (addOldAgeOfRecordAlarm_props props1 None)
  ∧ addOldAgeOfRecordAlarm (AlarmFactory.addAlarm f) metric props2 (Some "a")
    = AlarmFactory.addAlarm f metric
        (addOldAgeOfRecordAlarm_props props2 (Some "a"))
  ∧ addOldAgeOfRecordAlarm_props props1 None !! "alarmDescription"
    = addOldAgeOfRecordAlarm_props props2 (Some "a") !! "alarmDescription".
Proof.
  cbv zeta.
  apply (description_determines_threshold
           (AlarmFactory.addAlarm (exampleFactory "OrdersStream"))
           OldAgeOfRecord (MetricRef "DataFreshness")
           ({[ "ageOfRecordThreshold" := Num (Finite 60) ]} : object)
           ({[ "ageOfRecordThreshold" := Num (Finite 900) ]} : object)
           None (Some "a") 60 900);
    [reflexivity|reflexivity|unfold safe_integer; lia|unfold safe_integer; lia].
Defined.

(** X5. No two operations write the same [alarmNameSuffix], and no two of
    the four that pass an [alarmDedupeStringSuffix] pass the same one:
    whatever [props] and the disambiguators are, equal suffixes mean the
    same operation. *)
Theorem suffixes_tell_operations_apart
    (op1 op2 : operation) (props1 props2 : object)
    (d1 : disambiguator_param op1) (d2 : disambiguator_param op2) :
  (argument op1 props1 d1 !! "alarmNameSuffix"
   = argument op2 props2 d2 !! "alarmNameSuffix" ↔ op1 = op2)
  ∧ match Kind.alarmDedupeStringSuffix op1,
          Kind.alarmDedupeStringSuffix op2 with
    | Some _, Some _ =>
        argument op1 props1 d1 !! "alarmDedupeStringSuffix"
        = argument op2 props2 d2 !! "alarmDedupeStringSuffix" ↔ op1 = op2
    | _, _ => True
    end.
Proof.
  split.
  - rewrite !props_alarmNameSuffix. split.
    + destruct op1, op2; intros Heq; reflexivity || discriminate Heq.
    + intros Heq. destruct Heq. reflexivity.
  - rewrite !props_alarmDedupeStringSuffix.
    destruct op1, op2; cbn [Kind.alarmDedupeStringSuffix]; try exact I;
      split; intros Heq; reflexivity || discriminate Heq.
Qed.

End ArgumentFacts.

(** ** The order of [for ... in] *)

Section ForIn.
Context {A : Type}.
Implicit Types o : dictionary A.

Lemma insert_by_index_perm (x : N * A) l : insert_by_index x l ≡ₚ x :: l.
Proof.
  induction l as [|y l IH]; [reflexivity|]. cbn.
  case_decide; [reflexivity|]. rewrite IH. apply Permutation_swap.
Qed.

Lemma sort_by_index_perm (l : list (N * A)) : sort_by_index l ≡ₚ l.
Proof.
  induction l as [|x l IH]; [reflexivity|]. unfold sort_by_index in *.
  cbn [foldr]. by rewrite insert_by_index_perm, IH.
Qed.

Lemma insert_by_index_sorted (x : N * A) l :
  StronglySorted (λ p q, (p.1 ≤ q.1)%N) l →
  StronglySorted (λ p q, (p.1 ≤ q.1)%N) (insert_by_index x l).
Proof.
  induction 1 as [|y l Hsorted IH Hall]; cbn.
  - by repeat constructor.
  - case_decide as Hle.
    + constructor; [by constructor|]. constructor; [done|].
      eapply Forall_impl; [exact Hall|]. intros q Hq. cbn in *. lia.
    + constructor; [done|]. rewrite insert_by_index_perm.
      constructor; [cbn; lia|done].
Qed.

Lemma sort_by_index_sorted (l : list (N * A)) :
  StronglySorted (λ p q, (p.1 ≤ q.1)%N) (sort_by_index l).
Proof.
  induction l as [|x l IH]; [constructor|].
  unfold sort_by_index in *. cbn [foldr]. by apply insert_by_index_sorted.
Qed.

End ForIn.

Section ForInDictionary.
Context {A : Type}.
Implicit Types o : dictionary A.

Lemma indexed_index o :
  Forall (λ p, array_index p.2.1 = Some p.1) (indexed o).
Proof.
  unfold indexed. induction o as [|kv o IH]; [constructor|].
  cbn [omap list_omap]. destruct (array_index kv.1) eqn:Hkv; [|done].
  by constructor.
Qed.




Lemma for_in_default_named (r : option (dictionary A)) :
  Forall (λ kv, array_index kv.1 = None) (default [] r) →
  for_in r = default [] r.
Proof. destruct r as [o|]; [apply for_in_named|reflexivity]. Qed.

Lemma for_in_decompose o : index_names_first o (for_in (Some o)).
Proof.
  exists (sort_by_index (indexed o)). split; [reflexivity|].
  split; [by rewrite sort_by_index_perm; apply indexed_index|].
  split; [apply sort_by_index_sorted|].
  rewrite sort_by_index_perm. unfold indexed.
  induction o as [|kv o IH]; [reflexivity|]. cbn [omap list_omap].
  destruct (array_index kv.1) eqn:Hkv.
  - rewrite filter_cons_True by (by rewrite Hkv). cbn. by rewrite IH.
  - rewrite filter_cons_False; [exact IH|]. rewrite Hkv. by intros [??].
Qed.

Lemma for_in_default_decompose (r : option (dictionary A)) :
  index_names_first (default [] r) (for_in r).
Proof.
  destruct r as [o|]; [apply for_in_decompose|].
  exists []. split; [reflexivity|]. split; [constructor|].
  split; [constructor|reflexivity].
Qed.

(** A name that does not start with a digit is no array index. *)
Lemma array_index_letter c (k : string) :
  digit c = None → array_index (String c k) = None.
Proof. intros Hc. unfold array_index. cbn [digits]. by rewrite Hc. Qed.

End ForInDictionary.

(** ** More on the construction of the unit *)

Section FamilyFailure.
Import KinesisFirehoseMonitoring.
Context {S E : Type}.
Variable alarmFactory : Metric → object → Eff S E AlarmDefinition.
Variable metric : Metric.
Variable mk : string * object → object.
Variable push : t → HorizontalAnnotation → t.
Variable body : string * object → t → Eff (@World S E) E t.
Hypothesis body_eq : ∀ entry this,
  body entry this
  = (createdAlarm <~ logged_addAlarm alarmFactory metric (mk entry) ;;
     ret (addAlarm (push this (annotation createdAlarm)) createdAlarm)).

(** A loop that throws stopped at the first entry whose call threw. *)
Lemma family_loop_thrown_at entries this w w' e :
  forEach body entries this w = (w', inl e) →
  ∃ calls,
    trace w' = trace w ++ calls
    ∧ stopped_at (λ entry outcome, AddAlarm metric (mk entry) outcome)
        entries e calls.
Proof.
  revert this w. induction entries as [|entry entries IH]; intros this w Hrun.
  - discriminate.
  - cbn [forEach] in Hrun. unfold bind in Hrun.
    rewrite (family_step alarmFactory metric mk push body body_eq) in Hrun.
    destruct (alarmFactory metric (mk entry) (ext w)) as [s' [e'|a]].
    + injection Hrun as <- <-. eexists. split; [reflexivity|].
      by exists 0%nat, entry, [].
    + apply IH in Hrun as (calls & Htrace & n & entry' & created & Hn & Hlen
                            & ->).
      cbn [trace] in Htrace. eexists. split.
      * rewrite Htrace, <- app_assoc. reflexivity.
      * exists (Datatypes.S n), entry', (a :: created).
        split; [done|]. split; [by cbn; rewrite Hlen|]. reflexivity.
Qed.

End FamilyFailure.

Section UnitFacts.
Import KinesisFirehoseMonitoring.
Context {S E : Type}.
Variable alarmFactory : Metric → object → Eff S E AlarmDefinition.
Variable throttledRecordsMetric : Metric.
Variable maxAgeofRecordsMetric : Metric.

(** X6. A unit without alarm entries (both mappings absent or empty) calls
    the alarm factory not once and has no alarm and no annotation; a
    consumer, when supplied, is still called, with the empty list, and the
    construction throws only if the consumer does. *)
Theorem construction_without_alarms (props : @Props S E) (w : @World S E) :
  default [] (addRecordsThrottledAlarm props) = [] →
  default [] (addDeliveryFreshnessAlarm props) = [] →
  let unit :=
    {| recordCountAnnotations := []; ageAnnotations := []; alarms := [] |} in
  constructor alarmFactory throttledRecordsMetric maxAgeofRecordsMetric props w
  = match useCreatedAlarms props with
    | None => (w, inr unit)
    | Some consumer =>
        match consume consumer [] (ext w) with
        | (s', outcome) =>
            ({| ext := s'; trace := trace w ++ [Consume []] |},
             match outcome with
             | inl e => inl e
             | inr _ => inr unit
             end)
        end
    end.
Proof.
  intros Hthrottled Hfresh. cbv zeta.
  assert (for_in (addRecordsThrottledAlarm props) = []) as H1
    by (destruct (addRecordsThrottledAlarm props) as [[|??]|]; done).
  assert (for_in (addDeliveryFreshnessAlarm props) = []) as H2
    by (destruct (addDeliveryFreshnessAlarm props) as [[|??]|]; done).
  unfold constructor. rewrite H1, H2. cbn [forEach]. unfold bind, ret.
  destruct (useCreatedAlarms props) as [consumer|]; [|reflexivity].
  unfold logged_consume, createdAlarms. cbn [alarms].
  by destruct (consume consumer [] (ext w)) as [s' [e|[]]].
Qed.

(** X7. A construction that throws stops at the first call that throws:
    either at an entry of [addRecordsThrottledAlarm], after the alarms of
    the entries before it were created and without a call for any later
    entry; or at an entry of [addDeliveryFreshnessAlarm], after all
    records-throttled alarms and the delivery-freshness alarms before it;
    or in the consumer, after all alarms. The alarms created before the
    failure stay created. *)
Theorem construction_stops_at_first_failure
    (props : @Props S E) (w w' : @World S E) (e : E) :
  constructor alarmFactory throttledRecordsMetric maxAgeofRecordsMetric props w
  = (w', inl e) →
  (∃ calls,
     trace w' = trace w ++ calls
     ∧ stopped_at (recordsThrottled_attempt throttledRecordsMetric)
         (for_in (addRecordsThrottledAlarm props)) e calls)
  ∨ (∃ throttled calls,
       length throttled = length (for_in (addRecordsThrottledAlarm props))
       ∧ trace w'
         = trace w
           ++ zip_with (recordsThrottled_call throttledRecordsMetric)
                (for_in (addRecordsThrottledAlarm props)) throttled
           ++ calls
       ∧ stopped_at (deliveryFreshness_attempt maxAgeofRecordsMetric)
           (for_in (addDeliveryFreshnessAlarm props)) e calls)
  ∨ (is_Some (useCreatedAlarms props)
     ∧ ∃ throttled fresh,
         length throttled = length (for_in (addRecordsThrottledAlarm props))
         ∧ length fresh = length (for_in (addDeliveryFreshnessAlarm props))
         ∧ trace w'
           = trace w
             ++ zip_with (recordsThrottled_call throttledRecordsMetric)
                  (for_in (addRecordsThrottledAlarm props)) throttled
             ++ zip_with (deliveryFreshness_call maxAgeofRecordsMetric)
                  (for_in (addDeliveryFreshnessAlarm props)) fresh
             ++ [Consume (throttled ++ fresh)]).
Proof.
  intros Hrun. unfold constructor, bind in Hrun.
  destruct (forEach (recordsThrottled_body _ _) _ _ w)
    as [w1 [e1|this1]] eqn:Hloop1.
  { injection Hrun as <- <-. left.
    by apply (family_loop_thrown_at alarmFactory _ _ _ _
                (recordsThrottled_body_eq alarmFactory throttledRecordsMetric))
      in Hloop1. }
  apply (family_loop_done alarmFactory _ _ _ _
           (recordsThrottled_body_eq alarmFactory throttledRecordsMetric))
    in Hloop1 as (throttled & Hlen1 & Htrace1 & ->).
  destruct (forEach (deliveryFreshness_body _ _) _ _ w1)
    as [w2 [e2|this2]] eqn:Hloop2.
  { injection Hrun as <- <-. right. left.
    apply (family_loop_thrown_at alarmFactory _ _ _ _
             (deliveryFreshness_body_eq alarmFactory maxAgeofRecordsMetric))
      in Hloop2 as (calls & Htrace2 & Hstopped).
    exists throttled, calls. split; [done|]. split; [|done].
    rewrite Htrace2, Htrace1, <- app_assoc. reflexivity. }
  apply (family_loop_done alarmFactory _ _ _ _
           (deliveryFreshness_body_eq alarmFactory maxAgeofRecordsMetric))
    in Hloop2 as (fresh & Hlen2 & Htrace2 & ->).
  match type of Hrun with
  | context [foldl ?step (foldl ?step1 ?this0 throttled) fresh] =>
      destruct (fold_recordCount this0 throttled) as (_ & _ & Hr1);
      destruct (fold_age (foldl step1 this0 throttled) fresh)
        as (_ & _ & Hr2)
  end.
  cbv zeta in Hr1, Hr2. rewrite Hr1 in Hr2. cbn [alarms app] in Hr2.
  destruct (useCreatedAlarms props) as [consumer|]; [|discriminate].
  unfold logged_consume, createdAlarms in Hrun. rewrite Hr2 in Hrun.
  destruct (consume consumer (throttled ++ fresh) (ext w2)) as [s' [e'|[]]];
    [|discriminate].
  injection Hrun as <- <-. cbn [trace]. right. right.
  split; [done|]. exists throttled, fresh. split; [done|]. split; [done|].
  rewrite Htrace2, Htrace1, <- !app_assoc. reflexivity.
Qed.


(** X9. When no disambiguator is an array index, a construction that
    succeeds has made its calls, and pushed the annotations, in the order
    the entries were written in the two mappings. *)
Theorem creation_order_without_index_names
    (props : @Props S E) (w w' : @World S E) (unit : t) :
  Forall (λ kv, array_index kv.1 = None)
    (default [] (addRecordsThrottledAlarm props)) →
  Forall (λ kv, array_index kv.1 = None)
    (default [] (addDeliveryFreshnessAlarm props)) →
  constructor alarmFactory throttledRecordsMetric maxAgeofRecordsMetric props w
  = (w', inr unit) →
  ∃ throttled fresh,
    length throttled = length (default [] (addRecordsThrottledAlarm props))
    ∧ length fresh = length (default [] (addDeliveryFreshnessAlarm props))
    ∧ trace w'
      = trace w
        ++ zip_with (recordsThrottled_call throttledRecordsMetric)
             (default [] (addRecordsThrottledAlarm props)) throttled
        ++ zip_with (deliveryFreshness_call maxAgeofRecordsMetric)
             (default [] (addDeliveryFreshnessAlarm props)) fresh
        ++ match useCreatedAlarms props with
           | Some _ => [Consume (throttled ++ fresh)]
           | None => []
           end
    ∧ recordCountAnnotations unit = annotation <$> throttled
    ∧ ageAnnotations unit = annotation <$> fresh.
Proof.
  intros Hnamed1 Hnamed2 Hrun.
  apply constructor_done in Hrun
    as (throttled & fresh & Hlen1 & Hlen2 & Htrace & Hcount & Hage & _).
  rewrite (for_in_default_named _ Hnamed1) in Hlen1, Htrace.
  rewrite (for_in_default_named _ Hnamed2) in Hlen2, Htrace.
  by exists throttled, fresh.
Qed.

(** X10. The constructor creates the alarms of a mapping in the order of
    [for ... in], not in the order they were written: in a construction
    that succeeds, the calls for the disambiguators that are array indices
    come first, in ascending numeric order, then the calls for the other
    disambiguators in the order they were written; the annotations are
    pushed in that order. *)
Theorem index_disambiguators_created_first
    (props : @Props S E) (w w' : @World S E) (unit : t) :
  constructor alarmFactory throttledRecordsMetric maxAgeofRecordsMetric props w
  = (w', inr unit) →
  ∃ visited1 visited2 throttled fresh,
    index_names_first (default [] (addRecordsThrottledAlarm props)) visited1
    ∧ index_names_first (default [] (addDeliveryFreshnessAlarm props)) visited2
    ∧ length throttled = length visited1
    ∧ length fresh = length visited2
    ∧ trace w'
      = trace w
        ++ zip_with (recordsThrottled_call throttledRecordsMetric)
             visited1 throttled
        ++ zip_with (deliveryFreshness_call maxAgeofRecordsMetric)
             visited2 fresh
        ++ match useCreatedAlarms props with
           | Some _ => [Consume (throttled ++ fresh)]
           | None => []
           end
    ∧ recordCountAnnotations unit = annotation <$> throttled
    ∧ ageAnnotations unit = annotation <$> fresh.
Proof.
  intros Hrun.
  apply constructor_done in Hrun
    as (throttled & fresh & Hlen1 & Hlen2 & Htrace & Hcount & Hage & _).
  exists (for_in (addRecordsThrottledAlarm props)),
         (for_in (addDeliveryFreshnessAlarm props)), throttled, fresh.
  split; [apply for_in_default_decompose|].
  split; [apply for_in_default_decompose|]. done.
Qed.

End UnitFacts.

Section UnitExamples.
Import KinesisFirehoseMonitoring.

Lemma construction_stops_at_first_failure_witness :
  ∃ w',
    constructor (AlarmFactory.addAlarm (exampleFactory "OrdersStream"))
      (MetricRef "ThrottledRecords") (MetricRef "DataFreshness")
      failingProps emptyWorld
    = (w', inl AlarmFactory.InvalidThresholdError)
    ∧ name <$> ext w' = [Str "OrdersStream-PutRecordsThrottled-a"]
    ∧ length (trace w') = 2%nat
    ∧ ((∃ calls,
          trace w' = trace emptyWorld ++ calls
          ∧ stopped_at (recordsThrottled_attempt (MetricRef "ThrottledRecords"))
              (for_in (addRecordsThrottledAlarm failingProps))
              AlarmFactory.InvalidThresholdError calls)
       ∨ (∃ throttled calls,
            length throttled
            = length (for_in (addRecordsThrottledAlarm failingProps))
            ∧ trace w'
              = trace emptyWorld
                ++ zip_with (recordsThrottled_call (MetricRef "ThrottledRecords"))
                     (for_in (addRecordsThrottledAlarm failingProps)) throttled
                ++ calls
            ∧ stopped_at (deliveryFreshness_attempt (MetricRef "DataFreshness"))
                (for_in (addDeliveryFreshnessAlarm failingProps))
                AlarmFactory.InvalidThresholdError calls)
       ∨ (is_Some (useCreatedAlarms failingProps)
          ∧ ∃ throttled fresh,
              length throttled
              = length (for_in (addRecordsThrottledAlarm failingProps))
              ∧ length fresh
                = length (for_in (addDeliveryFreshnessAlarm failingProps))
              ∧ trace w'
                = trace emptyWorld
                  ++ zip_with
                       (recordsThrottled_call (MetricRef "ThrottledRecords"))
                       (for_in (addRecordsThrottledAlarm failingProps))
                       throttled
                  ++ zip_with
                       (deliveryFreshness_call (MetricRef "DataFreshness"))
                       (for_in (addDeliveryFreshnessAlarm failingProps)) fresh
                  ++ [Consume (throttled ++ fresh)])).
Proof.
  destruct (constructor (AlarmFactory.addAlarm (exampleFactory "OrdersStream"))
              (MetricRef "ThrottledRecords") (MetricRef "DataFreshness")
              failingProps emptyWorld) as [w' [e|unit]] eqn:Hrun.
  - pose proof (construction_stops_at_first_failure _ _ _ _ _ _ _ Hrun)
      as Hstopped.
    vm_compute in Hrun. injection Hrun as Hw He. destruct He.
    exists w'. split; [reflexivity|].
    split; [by rewrite <- Hw|]. split; [by rewrite <- Hw|]. exact Hstopped.
  - exfalso. vm_compute in Hrun. discriminate Hrun.
Defined.


Lemma construction_without_alarms_witness :
  constructor (AlarmFactory.addAlarm (exampleFactory "OrdersStream"))
    (MetricRef "ThrottledRecords") (MetricRef "DataFreshness")
    noAlarmProps emptyWorld
  = ({| ext := []; trace := [Consume []] |},
     inr {| recordCountAnnotations := []; ageAnnotations := [];
            alarms := [] |}).
Proof.
  apply (construction_without_alarms
           (AlarmFactory.addAlarm (exampleFactory "OrdersStream"))
           (MetricRef "ThrottledRecords") (MetricRef "DataFreshness")
           noAlarmProps emptyWorld); reflexivity.
Defined.


Lemma creation_order_without_index_names_witness :
  ∃ w' unit throttled fresh,
    constructor (AlarmFactory.addAlarm (exampleFactory "OrdersStream"))
      (MetricRef "ThrottledRecords") (MetricRef "DataFreshness")
      exampleProps emptyWorld
    = (w', inr unit)
    ∧ length throttled = 3%nat
    ∧ trace w'
      = zip_with (recordsThrottled_call (MetricRef "ThrottledRecords"))
          (default [] (addRecordsThrottledAlarm exampleProps)) throttled
        ++ zip_with (deliveryFreshness_call (MetricRef "DataFreshness"))
             (default [] (addDeliveryFreshnessAlarm exampleProps)) fresh
        ++ [Consume (throttled ++ fresh)]
    ∧ recordCountAnnotations unit = annotation <$> throttled.
Proof.
  destruct (constructor (AlarmFactory.addAlarm (exampleFactory "OrdersStream"))
              (MetricRef "ThrottledRecords") (MetricRef "DataFreshness")
              exampleProps emptyWorld) as [w' [e|unit]] eqn:Hrun.
  - exfalso. vm_compute in Hrun. discriminate Hrun.
  - assert (Forall (λ kv : string * object, array_index kv.1 = None)
              (default [] (addRecordsThrottledAlarm exampleProps))) as H1
      by (repeat constructor).
    assert (Forall (λ kv : string * object, array_index kv.1 = None)
              (default [] (addDeliveryFreshnessAlarm exampleProps))) as H2
      by (repeat constructor).
    destruct (creation_order_without_index_names _ _ _ _ _ _ _ H1 H2 Hrun)
      as (throttled & fresh & Hlen & _ & Htrace & Hcount & _).
    exists w', unit, throttled, fresh. done.
Defined.

Lemma index_disambiguators_created_first_witness :
  ∃ w' unit,
    constructor (AlarmFactory.addAlarm (exampleFactory "OrdersStream"))
      (MetricRef "ThrottledRecords") (MetricRef "DataFreshness")
      numberedProps emptyWorld
    = (w', inr unit)
    ∧ value <$> recordCountAnnotations unit
      = [ Num (Finite 4); Num (Finite 2); Num (Finite 1); Num (Finite 3) ]
    ∧ ∃ visited1 visited2 throttled fresh,
        index_names_first
          (default [] (addRecordsThrottledAlarm numberedProps)) visited1
        ∧ index_names_first
            (default [] (addDeliveryFreshnessAlarm numberedProps)) visited2
        ∧ length throttled = length visited1
        ∧ length fresh = length visited2
        ∧ trace w'
          = trace emptyWorld
            ++ zip_with (recordsThrottled_call (MetricRef "ThrottledRecords"))
                 visited1 throttled
            ++ zip_with (deliveryFreshness_call (MetricRef "DataFreshness"))
                 visited2 fresh
            ++ match useCreatedAlarms numberedProps with
               | Some _ => [Consume (throttled ++ fresh)]
               | None => []
               end
        ∧ recordCountAnnotations unit = annotation <$> throttled
        ∧ ageAnnotations unit = annotation <$> fresh.
Proof.
  destruct (constructor (AlarmFactory.addAlarm (exampleFactory "OrdersStream"))
              (MetricRef "ThrottledRecords") (MetricRef "DataFreshness")
              numberedProps emptyWorld) as [w' [e|unit]] eqn:Hrun.
  - exfalso. vm_compute in Hrun. discriminate Hrun.
  - pose proof (index_disambiguators_created_first _ _ _ _ _ _ _ Hrun)
      as Horder.
    vm_compute in Hrun. injection Hrun as Hw Hunit.
    exists w', unit. split; [reflexivity|].
    split; [by rewrite <- Hunit|]. exact Horder.
Defined.

End UnitExamples.

(** ** The widgets *)

Section WidgetFacts.
Import KinesisFirehoseMonitoring KinesisFirehoseWidgets.
Variable HalfWidth SixthWidth : number.
Variable DefaultGraphWidgetHeight DefaultSummaryWidgetHeight : number.

(** X11. Neither [widgets()] nor [summaryWidgets()] shows the data
    freshness: both are the same whatever [ageAnnotations] and
    [maxAgeofRecordsMetric] are. Only [createRecordFreshnessWidget], which
    neither of them calls, shows that metric with those annotations. *)
Theorem freshness_never_displayed
    (fields : Fields) (this : KinesisFirehoseMonitoring.t)
    (ages : list HorizontalAnnotation) (freshness : Metric)
    (width height : number) :
  let fields' :=
    {| title := title fields;
       streamUrl := streamUrl fields;
       incomingBytesMetric := incomingBytesMetric fields;
       incomingRecordsMetric := incomingRecordsMetric fields;
       throttledRecordsMetric := throttledRecordsMetric fields;
       successfulConversionMetric := successfulConversionMetric fields;
       failedConversionMetric := failedConversionMetric fields;
       putRecordLatency := putRecordLatency fields;
       putRecordBatchLatency := putRecordBatchLatency fields;
       incomingBytesToLimitRate := incomingBytesToLimitRate fields;
       incomingRecordsToLimitRate := incomingRecordsToLimitRate fields;
       incomingPutRequestsToLimitRate := incomingPutRequestsToLimitRate fields;
       maxAgeofRecordsMetric := freshness;
       deliveredRecordsMetric := deliveredRecordsMetric fields |} in
  let this' :=
    {| recordCountAnnotations := recordCountAnnotations this;
       ageAnnotations := ages;
       alarms := alarms this |} in
  widgets SixthWidth DefaultGraphWidgetHeight fields' this'
  = widgets SixthWidth DefaultGraphWidgetHeight fields this
  ∧ summaryWidgets HalfWidth DefaultSummaryWidgetHeight fields' this'
    = summaryWidgets HalfWidth DefaultSummaryWidgetHeight fields this
  ∧ shown_annotations
      (Graph (createRecordFreshnessWidget fields' this' width height))
    = ages
  ∧ shown_metrics
      (Graph (createRecordFreshnessWidget fields' this' width height))
    = [freshness].
Proof. cbv zeta. by split_and!. Qed.

(** X12. After a construction that succeeds, the two "Records" graphs of
    [widgets()], and the one of [summaryWidgets()], show the annotations of
    the records-throttled alarms, in the order the alarms were created;
    the other graphs of the two lists show none, except the limits graph
    with its fixed line at 1. The annotations of the delivery-freshness
    alarms are those of the data freshness widget. *)
Theorem record_widgets_show_throttle_annotations {S E : Type}
    (alarmFactory : Metric → object → Eff S E AlarmDefinition)
    (fields : Fields) (props : @Props S E) (w w' : @World S E)
    (unit : KinesisFirehoseMonitoring.t) (width height : number) :
  constructor alarmFactory (throttledRecordsMetric fields)
    (maxAgeofRecordsMetric fields) props w
  = (w', inr unit) →
  ∃ throttled fresh,
    length throttled = length (for_in (addRecordsThrottledAlarm props))
    ∧ length fresh = length (for_in (addDeliveryFreshnessAlarm props))
    ∧ createdAlarms unit = throttled ++ fresh
    ∧ shown_annotations
        <$> widgets SixthWidth DefaultGraphWidgetHeight fields unit
      = [ []; annotation <$> throttled; annotation <$> throttled; []; [];
          [ {| value := Num (Finite 1); label := "100% usage" |} ] ]
    ∧ shown_annotations
        <$> summaryWidgets HalfWidth DefaultSummaryWidgetHeight fields unit
      = [ []; annotation <$> throttled; [] ]
    ∧ shown_annotations
        (Graph (createRecordFreshnessWidget fields unit width height))
      = annotation <$> fresh.
Proof.
  intros Hrun.
  apply constructor_done in Hrun
    as (throttled & fresh & Hlen1 & Hlen2 & _ & Hcount & Hage & Hall).
  exists throttled, fresh. split; [done|]. split; [done|]. split; [done|].
  unfold widgets, summaryWidgets. cbn. rewrite Hcount, Hage. done.
Qed.

End WidgetFacts.

Section WidgetExamples.
Import KinesisFirehoseMonitoring KinesisFirehoseWidgets.

Lemma record_widgets_show_throttle_annotations_witness :
  ∃ w' unit,
    constructor (AlarmFactory.addAlarm (exampleFactory "OrdersStream"))
      (throttledRecordsMetric exampleFields)
      (maxAgeofRecordsMetric exampleFields) exampleProps emptyWorld
    = (w', inr unit)
    ∧ (fmap value ∘ shown_annotations)
        <$> widgets (Finite 4) (Finite 5) exampleFields unit
      = [ []; [Num (Finite 1); Num (Finite 2); Num (Finite 3)];
          [Num (Finite 1); Num (Finite 2); Num (Finite 3)]; []; [];
          [Num (Finite 1)] ]
    ∧ ∃ throttled,
        shown_annotations
          <$> summaryWidgets (Finite 12) (Finite 6) exampleFields unit
        = [ []; annotation <$> throttled; [] ].
Proof.
  destruct (constructor (AlarmFactory.addAlarm (exampleFactory "OrdersStream"))
              (throttledRecordsMetric exampleFields)
              (maxAgeofRecordsMetric exampleFields) exampleProps emptyWorld)
    as [w' [e|unit]] eqn:Hrun.
  - exfalso. vm_compute in Hrun. discriminate Hrun.
  - exists w', unit. split; [reflexivity|].
    destruct (record_widgets_show_throttle_annotations (Finite 12) (Finite 4)
                (Finite 5) (Finite 6) _ _ _ _ _ _ (Finite 4) (Finite 5) Hrun)
      as (throttled & fresh & _ & _ & _ & _ & Hsummary & _).
    vm_compute in Hrun. injection Hrun as _ Hunit.
    split; [by rewrite <- Hunit|]. by exists throttled.
Defined.

End WidgetExamples.
